(** * react-native-gnss-status-checker

    Frequency-band classification, dual-frequency inference and satellite
    statistics of [src/index.ts], together with the status query, the start
    and stop of listening and the two platform callbacks of
    [GnssStatusCheckerModule.kt].

    Conventions of the embedding.
    - A JavaScript [number] or Kotlin [Double]/[Float] that carries a
      frequency or a signal strength is an exact rational [Q]: comparison,
      subtraction, addition and [Math.abs] are the exact ones, and NaN and
      the infinities are not values of the model.  Counts are [nat].
    - An optional field ([cn0DbHz?: number], [Float?]) is an [option].
    - The plain object [{}] that [getSatelliteStatistics] fills is a map of
      own properties (a [gmap]) read through its prototype chain.
    - A [Promise] settled by a native method is the value it settles to. *)

From Stdlib Require Import QArith Qabs Qminmax Lqa ZArith List Bool SetoidList.
From stdpp Require Import gmap strings list fin_maps.

Local Open Scope string_scope.
Local Open Scope Q_scope.

(** ** Numbers *)

Definition Math_abs (x : Q) : Q := Qabs x.

Notation "x <=? y" := (Qle_bool x y) (at level 70, no associativity) : Q_scope.
Notation "x >=? y" := (Qle_bool y x) (at level 70, no associativity) : Q_scope.

(** ** [src/index.ts]: constants *)

Module GnssConstellations.
Definition UNKNOWN : Z := 0.
Definition GPS : Z := 1.
Definition SBAS : Z := 2.
Definition GLONASS : Z := 3.
Definition QZSS : Z := 4.
Definition BEIDOU : Z := 5.
Definition GALILEO : Z := 6.
Definition IRNSS : Z := 7.
End GnssConstellations.

Module CarrierFrequencies.
Definition GPS_L1 : Q := 1575.42.
Definition GPS_L2 : Q := 1227.6.
Definition GPS_L3 : Q := 1381.05.
Definition GPS_L4 : Q := 1379.913.
Definition GPS_L5 : Q := 1176.45.

Definition GLONASS_L1_MIN : Q := 1598.0625.
Definition GLONASS_L1_MAX : Q := 1605.375.
Definition GLONASS_L1_CENTER : Q := 1602.0.
Definition GLONASS_L2_MIN : Q := 1242.9375.
Definition GLONASS_L2_MAX : Q := 1248.625.
Definition GLONASS_L2_CENTER : Q := 1246.0.
Definition GLONASS_L3 : Q := 1202.025.
Definition GLONASS_L5 : Q := 1176.45.

Definition QZSS_L1 : Q := 1575.42.
Definition QZSS_L2 : Q := 1227.6.
Definition QZSS_L5 : Q := 1176.45.
Definition QZSS_LEX : Q := 1278.75.

Definition GALILEO_E1 : Q := 1575.42.
Definition GALILEO_E5 : Q := 1191.795.
Definition GALILEO_E5a : Q := 1176.45.
Definition GALILEO_E5b : Q := 1207.14.
Definition GALILEO_E6 : Q := 1278.75.

Definition BEIDOU_B1 : Q := 1561.098.
Definition BEIDOU_B1_2 : Q := 1589.742.
Definition BEIDOU_B2 : Q := 1207.14.
Definition BEIDOU_B2a : Q := 1176.45.
Definition BEIDOU_B3 : Q := 1268.52.

Definition NAVIC_L5 : Q := 1176.45.
Definition NAVIC_S : Q := 2492.028.

Definition SBAS_L1 : Q := 1575.42.
Definition SBAS_L5 : Q := 1176.45.
End CarrierFrequencies.

(** ** [src/index.ts]: records *)

Record FrequencyBandInfo : Type := {
  frequency : Q;
  constellation : string;
  band : string;
  isDualFrequency : bool
}.

Record SatelliteInfo : Type := {
  svid : Z;
  constellationType : Z;
  constellationName : string;
  cn0DbHz : option Q;
  elevation : option Q;
  azimuth : option Q;
  hasEphemeris : bool;
  hasAlmanac : bool;
  usedInFix : bool;
  carrierFrequencyHz : option Q
}.

(** ** [identifyFrequencyBand]

    The second parameter has the default value 1.0: [None] is a call that
    leaves it out. *)

Definition identifyFrequencyBand (frequencyMHz : Q) (tolerance : option Q)
  : FrequencyBandInfo :=
  let tolerance := default 1.0 tolerance in
  let freq := frequencyMHz in
  (* GPS bands *)
  if Math_abs (freq - CarrierFrequencies.GPS_L1) <=? tolerance then
    {| frequency := freq; constellation := "GPS"; band := "L1";
       isDualFrequency := false |}
  else if Math_abs (freq - CarrierFrequencies.GPS_L2) <=? tolerance then
    {| frequency := freq; constellation := "GPS"; band := "L2";
       isDualFrequency := true |}
  else if Math_abs (freq - CarrierFrequencies.GPS_L5) <=? tolerance then
    {| frequency := freq; constellation := "GPS"; band := "L5";
       isDualFrequency := true |}
  (* GLONASS bands *)
  else if (freq >=? CarrierFrequencies.GLONASS_L1_MIN - tolerance)
          && (freq <=? CarrierFrequencies.GLONASS_L1_MAX + tolerance) then
    {| frequency := freq; constellation := "GLONASS"; band := "L1";
       isDualFrequency := false |}
  else if (freq >=? CarrierFrequencies.GLONASS_L2_MIN - tolerance)
          && (freq <=? CarrierFrequencies.GLONASS_L2_MAX + tolerance) then
    {| frequency := freq; constellation := "GLONASS"; band := "L2";
       isDualFrequency := true |}
  else if Math_abs (freq - CarrierFrequencies.GLONASS_L5) <=? tolerance then
    {| frequency := freq; constellation := "GLONASS"; band := "L5";
       isDualFrequency := true |}
  (* Galileo bands *)
  else if Math_abs (freq - CarrierFrequencies.GALILEO_E1) <=? tolerance then
    {| frequency := freq; constellation := "GALILEO"; band := "E1";
       isDualFrequency := false |}
  else if Math_abs (freq - CarrierFrequencies.GALILEO_E5a) <=? tolerance then
    {| frequency := freq; constellation := "GALILEO"; band := "E5a";
       isDualFrequency := true |}
  else if Math_abs (freq - CarrierFrequencies.GALILEO_E5b) <=? tolerance then
    {| frequency := freq; constellation := "GALILEO"; band := "E5b";
       isDualFrequency := true |}
  (* BeiDou bands *)
  else if Math_abs (freq - CarrierFrequencies.BEIDOU_B1) <=? tolerance then
    {| frequency := freq; constellation := "BEIDOU"; band := "B1";
       isDualFrequency := false |}
  else if Math_abs (freq - CarrierFrequencies.BEIDOU_B2a) <=? tolerance then
    {| frequency := freq; constellation := "BEIDOU"; band := "B2a";
       isDualFrequency := true |}
  else if Math_abs (freq - CarrierFrequencies.BEIDOU_B3) <=? tolerance then
    {| frequency := freq; constellation := "BEIDOU"; band := "B3";
       isDualFrequency := true |}
  (* QZSS bands *)
  else if Math_abs (freq - CarrierFrequencies.QZSS_L1) <=? tolerance then
    {| frequency := freq; constellation := "QZSS"; band := "L1";
       isDualFrequency := false |}
  else if Math_abs (freq - CarrierFrequencies.QZSS_L5) <=? tolerance then
    {| frequency := freq; constellation := "QZSS"; band := "L5";
       isDualFrequency := true |}
  (* NavIC bands *)
  else if Math_abs (freq - CarrierFrequencies.NAVIC_L5) <=? tolerance then
    {| frequency := freq; constellation := "NAVIC"; band := "L5";
       isDualFrequency := true |}
  else if Math_abs (freq - CarrierFrequencies.NAVIC_S) <=? tolerance then
    {| frequency := freq; constellation := "NAVIC"; band := "S";
       isDualFrequency := true |}
  (* SBAS bands *)
  else if Math_abs (freq - CarrierFrequencies.SBAS_L1) <=? tolerance then
    {| frequency := freq; constellation := "SBAS"; band := "L1";
       isDualFrequency := false |}
  else if Math_abs (freq - CarrierFrequencies.SBAS_L5) <=? tolerance then
    {| frequency := freq; constellation := "SBAS"; band := "L5";
       isDualFrequency := true |}
  (* Unknown frequency *)
  else
    {| frequency := freq; constellation := "UNKNOWN"; band := "UNKNOWN";
       isDualFrequency := false |}.

(** [carrierFrequencies.some(freq => identifyFrequencyBand(freq).isDualFrequency)] *)
Definition isDualFrequencySupported (carrierFrequencies : list Q) : bool :=
  existsb
    (fun freq =>
       let bandInfo := identifyFrequencyBand freq None in
       isDualFrequency bandInfo)
    carrierFrequencies.

Definition getFrequencyBandInfo (carrierFrequencies : list Q)
  : list FrequencyBandInfo :=
  map (fun freq => identifyFrequencyBand freq None) carrierFrequencies.

Definition isNavICSupported (supportedConstellations : list string) : bool :=
  existsb (String.eqb "IRNSS") supportedConstellations.

(** ** Satellite filters *)

Definition getSatellitesByConstellation
  (satellites : list SatelliteInfo) (constellationType0 : Z)
  : list SatelliteInfo :=
  List.filter (fun sat => Z.eqb (constellationType sat) constellationType0)
    satellites.

Definition getSatellitesUsedInFix (satellites : list SatelliteInfo)
  : list SatelliteInfo :=
  List.filter (fun sat => usedInFix sat) satellites.

(** [sat.cn0DbHz !== undefined && sat.cn0DbHz >= minCn0] *)
Definition hasSignalAtLeast (minCn0 : Q) (sat : SatelliteInfo) : bool :=
  match cn0DbHz sat with
  | None => false
  | Some cn0 => cn0 >=? minCn0
  end.

(** The second parameter has the default value 20. *)
Definition getSatellitesWithGoodSignal
  (satellites : list SatelliteInfo) (minCn0 : option Q)
  : list SatelliteInfo :=
  let minCn0 := default 20 minCn0 in
  List.filter (hasSignalAtLeast minCn0) satellites.

(** ** Plain objects used as counters

    [stats.byConstellation] starts as the object literal [{}].  Reading
    [obj[key]] finds an own property or, failing that, a member that the
    object inherits from [Object.prototype]; writing [obj[key] = v] creates
    or replaces an own property, except for the key [__proto__], whose
    inherited setter ignores a value that is not an object. *)

Inductive JsValue : Type :=
| JsNumber (n : nat)
    (* a count *)
| JsInherited (key : string)
    (* the built-in function or object [Object.prototype[key]] *)
| JsText (key : string) (suffix : string).
    (* the string [String(Object.prototype[key]) + suffix] *)

Definition Object_prototype_keys : list string :=
  [ "constructor"; "hasOwnProperty"; "isPrototypeOf"; "propertyIsEnumerable";
    "toLocaleString"; "toString"; "valueOf"; "__proto__";
    "__defineGetter__"; "__defineSetter__";
    "__lookupGetter__"; "__lookupSetter__" ].

(** [obj[key]]; [None] is [undefined] *)
Definition getProperty (obj : gmap string JsValue) (key : string)
  : option JsValue :=
  match obj !! key with
  | Some v => Some v
  | None =>
      if bool_decide (key ∈ Object_prototype_keys)
      then Some (JsInherited key)
      else None
  end.

(** [obj[key] = v], for a value [v] that is a number or a string *)
Definition setProperty (obj : gmap string JsValue) (key : string) (v : JsValue)
  : gmap string JsValue :=
  if bool_decide (key = "__proto__") then obj else <[key := v]> obj.

(** [v || d]: [undefined] and [0] are falsy; a function and an object are
    truthy, and so is a [JsText], which is never the empty string. *)
Definition jsOr (v : option JsValue) (d : JsValue) : JsValue :=
  match v with
  | None => d
  | Some (JsNumber O) => d
  | Some x => x
  end.

(** [v + 1]: addition of numbers; an object or a function is first turned
    into its string, and a string is concatenated with ["1"]. *)
Definition jsPlusOne (v : JsValue) : JsValue :=
  match v with
  | JsNumber n => JsNumber (n + 1)
  | JsInherited key => JsText key "1"
  | JsText key suffix => JsText key (suffix ++ "1")
  end.

(** ** [getSatelliteStatistics] *)

(** [Math.max(...values)] and [Math.min(...values)] for an argument list that
    is not empty, given as its first element and the rest. *)
Definition Math_max (first : Q) (rest : list Q) : Q := fold_left Qmax rest first.
Definition Math_min (first : Q) (rest : list Q) : Q := fold_left Qmin rest first.

Module Stats.
Record t : Type := {
  total : nat;
  usedInFix : nat;
  withEphemeris : nat;
  withAlmanac : nat;
  withGoodSignal : nat;
  byConstellation : gmap string JsValue;
  averageSignalStrength : Q;
  strongestSignal : Q;
  weakestSignal : Q
}.
End Stats.

(** [satellites.forEach(sat => { byConstellation[name] = (byConstellation[name] || 0) + 1 })] *)
Definition groupByConstellation (satellites : list SatelliteInfo)
  : gmap string JsValue :=
  fold_left
    (fun obj sat =>
       setProperty obj (constellationName sat)
         (jsPlusOne (jsOr (getProperty obj (constellationName sat)) (JsNumber 0))))
    satellites ∅.

(** [satellites.filter(sat => sat.cn0DbHz !== undefined).map(sat => sat.cn0DbHz!)] *)
Definition signalStrengthsOf (satellites : list SatelliteInfo) : list Q :=
  omap cn0DbHz satellites.

Definition getSatelliteStatistics (satellites : list SatelliteInfo) : Stats.t :=
  let total := length satellites in
  let usedInFix := length (List.filter (fun sat => usedInFix sat) satellites) in
  let withEphemeris :=
    length (List.filter (fun sat => hasEphemeris sat) satellites) in
  let withAlmanac :=
    length (List.filter (fun sat => hasAlmanac sat) satellites) in
  let withGoodSignal := length (List.filter (hasSignalAtLeast 20) satellites) in
  let byConstellation := groupByConstellation satellites in
  let signalStrengths := signalStrengthsOf satellites in
  match signalStrengths with
  | [] =>
      {| Stats.total := total; Stats.usedInFix := usedInFix;
         Stats.withEphemeris := withEphemeris;
         Stats.withAlmanac := withAlmanac;
         Stats.withGoodSignal := withGoodSignal;
         Stats.byConstellation := byConstellation;
         Stats.averageSignalStrength := 0;
         Stats.strongestSignal := 0;
         Stats.weakestSignal := 0 |}
  | first :: rest =>
      {| Stats.total := total; Stats.usedInFix := usedInFix;
         Stats.withEphemeris := withEphemeris;
         Stats.withAlmanac := withAlmanac;
         Stats.withGoodSignal := withGoodSignal;
         Stats.byConstellation := byConstellation;
         Stats.averageSignalStrength :=
           fold_left Qplus signalStrengths 0
           / inject_Z (Z.of_nat (length signalStrengths));
         Stats.strongestSignal := Math_max first rest;
         Stats.weakestSignal := Math_min first rest |}
  end.

(** The counts held by an object, added up: [None] when a value is not a
    number. *)
Definition countOf (v : JsValue) : option nat :=
  match v with
  | JsNumber n => Some n
  | _ => None
  end.

Definition addCount (key : string) (v : JsValue) (acc : option nat)
  : option nat :=
  match countOf v, acc with
  | Some n, Some a => Some (n + a)%nat
  | _, _ => None
  end.

Definition sumOfCounts (obj : gmap string JsValue) : option nat :=
  map_fold addCount (Some 0%nat) obj.

Definition sumQ (values : list Q) : Q := fold_right Qplus 0 values.

(** ** [GnssStatusCheckerModule.kt] *)

(** A platform call inside [try]: the message of the exception it throws, or
    its result. *)
Definition Exceptional (A : Type) : Type := (string + A)%type.

(** What a React [Promise] is settled to. *)
Inductive Settled (A : Type) : Type :=
| Resolved (value : A)
| Rejected (code : string) (message : string).
Arguments Resolved {A} value.
Arguments Rejected {A} code message.

Module Native.

Definition CONSTELLATION_UNKNOWN : Z := 0.
Definition CONSTELLATION_GPS : Z := 1.
Definition CONSTELLATION_SBAS : Z := 2.
Definition CONSTELLATION_GLONASS : Z := 3.
Definition CONSTELLATION_QZSS : Z := 4.
Definition CONSTELLATION_BEIDOU : Z := 5.
Definition CONSTELLATION_GALILEO : Z := 6.
Definition CONSTELLATION_IRNSS : Z := 7.

Definition FREQ_TOLERANCE : Q := 10.0.

Definition DUAL_FREQUENCY_BANDS : list (Q * string) :=
  [ (1176.45, "L5/E5a/B2a");
    (1227.6, "L2");
    (1207.14, "E5b/B2");
    (1268.52, "B3");
    (1278.75, "E6/LEX");
    (1191.795, "E5");
    (2492.028, "S") ].

Definition GLONASS_L2_MIN : Q := 1242.9375.
Definition GLONASS_L2_MAX : Q := 1248.625.
Definition GPS_L5_FREQUENCY : Q := 1176.45.

Definition VERSION_CODES_N : Z := 24.
Definition VERSION_CODES_O : Z := 26.

Record SatelliteData : Type := {
  svid : Z;
  constellationType : Z;
  constellationName : string;
  hasEphemeris : bool;
  hasAlmanac : bool;
  usedInFix : bool;
  cn0DbHz : option Q;
  elevation : option Q;
  azimuth : option Q;
  carrierFrequencyHz : option Q
}.

(** The mutable fields of the module.  A callback field holds [true] when
    it is not [null]; the two hash sets are lists of their elements. *)
Record State : Type := {
  gnssStatusCallback : bool;
  gnssMeasurementsCallback : bool;
  currentSatelliteCount : Z;
  satellitesUsedInFix : Z;
  averageSignalToNoiseRatio : Q;
  supportedConstellations : list Z;
  detectedFrequencies : list Q;
  satelliteDataList : list SatelliteData
}.

(** What the module asks of the platform. *)
Record Platform : Type := {
  checkSelfPermission_granted : bool;
  SDK_INT : Z;
  isProviderEnabled : Exceptional bool;
  registerGnssStatusCallback : Exceptional unit;
  registerGnssMeasurementsCallback : Exceptional unit
}.

(** The map that [getGNSSStatus] resolves its promise with.  A key that is
    also the name of a field of the module carries the prefix [result_]. *)
Record StatusMap : Type := {
  isGNSSSupported : bool;
  satellitesVisible : Z;
  result_satellitesUsedInFix : Z;
  result_averageSignalToNoiseRatio : Q;
  apiLevel : Z;
  supportsCn0 : bool;
  supportsCarrierFreq : bool;
  result_supportedConstellations : list string;
  carrierFrequencies : list Q;
  satellites : list SatelliteInfo;
  isDualFrequencySupported : bool;
  isNavICSupported : bool
}.

Definition hasLocationPermission (p : Platform) : bool :=
  checkSelfPermission_granted p.

Definition getConstellationName (constellation : Z) : string :=
  if Z.eqb constellation CONSTELLATION_GPS then "GPS"
  else if Z.eqb constellation CONSTELLATION_SBAS then "SBAS"
  else if Z.eqb constellation CONSTELLATION_GLONASS then "GLONASS"
  else if Z.eqb constellation CONSTELLATION_QZSS then "QZSS"
  else if Z.eqb constellation CONSTELLATION_BEIDOU then "BEIDOU"
  else if Z.eqb constellation CONSTELLATION_GALILEO then "GALILEO"
  else if Z.eqb constellation CONSTELLATION_IRNSS then "IRNSS"
  else "UNKNOWN".

Definition supportsAdvancedGnssFeatures (p : Platform) : bool :=
  Z.leb VERSION_CODES_N (SDK_INT p).

Definition supportsCarrierFrequency (p : Platform) : bool :=
  Z.leb VERSION_CODES_O (SDK_INT p).

Definition toWritableMap (s : SatelliteData) : SatelliteInfo :=
  Build_SatelliteInfo
    (svid s) (constellationType s) (constellationName s)
    (cn0DbHz s) (elevation s) (azimuth s)
    (hasEphemeris s) (hasAlmanac s) (usedInFix s)
    (carrierFrequencyHz s).

(** The test applied to one detected frequency in [getGNSSStatus]:
    [DUAL_FREQUENCY_BANDS.keys.any { abs(freq - it) <= FREQ_TOLERANCE }
     || (freq >= GLONASS_L2_MIN - FREQ_TOLERANCE
         && freq <= GLONASS_L2_MAX + FREQ_TOLERANCE)] *)
Definition indicatesDualFrequency (freq : Q) : bool :=
  existsb (fun dualFreq => Qabs (freq - dualFreq) <=? FREQ_TOLERANCE)
    (map fst DUAL_FREQUENCY_BANDS)
  || ((freq >=? GLONASS_L2_MIN - FREQ_TOLERANCE)
      && (freq <=? GLONASS_L2_MAX + FREQ_TOLERANCE)).

Definition getGNSSStatus (p : Platform) (st : State) : Settled StatusMap :=
  if negb (hasLocationPermission p) then
    Rejected "PERMISSION_DENIED" "Location permission is required"
  else
    match isProviderEnabled p with
    | inl message =>
        Rejected "GNSS_ERROR" ("Failed to get GNSS status: " ++ message)
    | inr enabled =>
        Resolved
          {| isGNSSSupported := enabled;
             satellitesVisible := currentSatelliteCount st;
             result_satellitesUsedInFix := satellitesUsedInFix st;
             result_averageSignalToNoiseRatio := averageSignalToNoiseRatio st;
             apiLevel := SDK_INT p;
             supportsCn0 := supportsAdvancedGnssFeatures p;
             supportsCarrierFreq := supportsCarrierFrequency p;
             result_supportedConstellations :=
               map getConstellationName (supportedConstellations st);
             carrierFrequencies := detectedFrequencies st;
             satellites := map toWritableMap (satelliteDataList st);
             isDualFrequencySupported :=
               existsb indicatesDualFrequency (detectedFrequencies st);
             isNavICSupported :=
               existsb (Z.eqb CONSTELLATION_IRNSS) (supportedConstellations st)
          |}
    end.

Definition withStatusCallback (st : State) : State :=
  {| gnssStatusCallback := true;
     gnssMeasurementsCallback := gnssMeasurementsCallback st;
     currentSatelliteCount := currentSatelliteCount st;
     satellitesUsedInFix := satellitesUsedInFix st;
     averageSignalToNoiseRatio := averageSignalToNoiseRatio st;
     supportedConstellations := supportedConstellations st;
     detectedFrequencies := detectedFrequencies st;
     satelliteDataList := satelliteDataList st |}.

Definition withMeasurementsCallback (st : State) : State :=
  {| gnssStatusCallback := gnssStatusCallback st;
     gnssMeasurementsCallback := true;
     currentSatelliteCount := currentSatelliteCount st;
     satellitesUsedInFix := satellitesUsedInFix st;
     averageSignalToNoiseRatio := averageSignalToNoiseRatio st;
     supportedConstellations := supportedConstellations st;
     detectedFrequencies := detectedFrequencies st;
     satelliteDataList := satelliteDataList st |}.

Definition startListeningFailed (message : string) : Settled unit :=
  Rejected "START_LISTENING_ERROR" ("Failed to start listening: " ++ message).

(** The promise's settlement and the module's fields afterwards. *)
Definition startListening (p : Platform) (st : State)
  : Settled unit * State :=
  if negb (hasLocationPermission p) then
    (Rejected "PERMISSION_DENIED" "Location permission is required", st)
  else
    (* Start GNSS status monitoring *)
    let afterStatus : Exceptional unit * State :=
      if negb (gnssStatusCallback st) then
        (registerGnssStatusCallback p, withStatusCallback st)
      else (inr tt, st) in
    match afterStatus with
    | (inl message, st1) => (startListeningFailed message, st1)
    | (inr _, st1) =>
        (* Start GNSS measurements monitoring (API 24+) *)
        let afterMeasurements : Exceptional unit * State :=
          if Z.leb VERSION_CODES_N (SDK_INT p)
             && negb (gnssMeasurementsCallback st1) then
            (registerGnssMeasurementsCallback p, withMeasurementsCallback st1)
          else (inr tt, st1) in
        match afterMeasurements with
        | (inl message, st2) => (startListeningFailed message, st2)
        | (inr _, st2) => (Resolved tt, st2)
        end
    end.

(** *** Reflection cache

    The [init] block looks six accessors of [GnssStatus] up by name, one
    after the other inside a single [try]: the first name that the class
    does not declare ends the block and leaves the remaining fields [null].
    A field holds [true] when it is not [null]. *)
Record ReflectionCache : Type := {
  hasCn0DbHzMethod : bool;
  getCn0DbHzMethod : bool;
  hasElevationDegreesMethod : bool;
  getElevationDegreesMethod : bool;
  hasAzimuthDegreesMethod : bool;
  getAzimuthDegreesMethod : bool
}.

Definition accessorNames : list string :=
  [ "hasCn0DbHz"; "getCn0DbHz"; "hasElevationDegrees"; "getElevationDegrees";
    "hasAzimuthDegrees"; "getAzimuthDegrees" ].

(** How many of the names are found before the first [NoSuchMethodException]. *)
Fixpoint foundBeforeFirstMissing (declares : string -> bool)
    (names : list string) : nat :=
  match names with
  | [] => 0
  | name :: rest =>
      if declares name then S (foundBeforeFirstMissing declares rest) else 0
  end.

Definition initReflection (declares : string -> bool) : ReflectionCache :=
  let found := foundBeforeFirstMissing declares accessorNames in
  {| hasCn0DbHzMethod := Nat.ltb 0 found;
     getCn0DbHzMethod := Nat.ltb 1 found;
     hasElevationDegreesMethod := Nat.ltb 2 found;
     getElevationDegreesMethod := Nat.ltb 3 found;
     hasAzimuthDegreesMethod := Nat.ltb 4 found;
     getAzimuthDegreesMethod := Nat.ltb 5 found |}.

(** *** Platform snapshots *)

(** One satellite of a [GnssStatus], by the accessors the module calls. *)
Module GnssStatus.
Record satellite : Type := {
  getSvid : Z;
  getConstellationType : Z;
  usedInFix : bool;
  hasEphemerisData : bool;
  hasAlmanacData : bool;
  hasCn0DbHz : bool;
  getCn0DbHz : Q;
  hasElevationDegrees : bool;
  getElevationDegrees : Q;
  hasAzimuthDegrees : bool;
  getAzimuthDegrees : Q;
  hasCarrierFrequencyHz : bool;
  getCarrierFrequencyHz : Q
}.
End GnssStatus.

(** One measurement of a [GnssMeasurementsEvent]. *)
Module GnssMeasurement.
Record t : Type := {
  hasCarrierFrequencyHz : bool;
  carrierFrequencyHz : Q
}.
End GnssMeasurement.

Definition safeHasCn0DbHz (cache : ReflectionCache) (s : GnssStatus.satellite)
  : bool :=
  if hasCn0DbHzMethod cache then GnssStatus.hasCn0DbHz s else false.

Definition safeGetCn0DbHz (cache : ReflectionCache) (s : GnssStatus.satellite)
  : Q :=
  if getCn0DbHzMethod cache then GnssStatus.getCn0DbHz s else 0.

Definition safeHasElevationDegrees (cache : ReflectionCache)
    (s : GnssStatus.satellite) : bool :=
  if hasElevationDegreesMethod cache then GnssStatus.hasElevationDegrees s
  else false.

Definition safeGetElevationDegrees (cache : ReflectionCache)
    (s : GnssStatus.satellite) : Q :=
  if getElevationDegreesMethod cache then GnssStatus.getElevationDegrees s
  else 0.

Definition safeHasAzimuthDegrees (cache : ReflectionCache)
    (s : GnssStatus.satellite) : bool :=
  if hasAzimuthDegreesMethod cache then GnssStatus.hasAzimuthDegrees s
  else false.

Definition safeGetAzimuthDegrees (cache : ReflectionCache)
    (s : GnssStatus.satellite) : Q :=
  if getAzimuthDegreesMethod cache then GnssStatus.getAzimuthDegrees s else 0.

(** *** Hash sets

    [HashSet.add] on the list of the set's elements: an element that is
    already there is not added again.  Two [Double]s are the same element
    when they are the same number. *)
Definition hashSetAddInt (x : Z) (s : list Z) : list Z :=
  if existsb (Z.eqb x) s then s else (s ++ [x])%list.

Definition hashSetAddDouble (x : Q) (s : list Q) : list Q :=
  if existsb (Qeq_bool x) s then s else (s ++ [x])%list.

(** *** Events *)

Module SatelliteStatusEvent.
Record t : Type := {
  satellitesVisible : Z;
  satellitesUsedInFix : Z;
  averageSignalToNoiseRatio : Q;
  supportedConstellations : list string;
  isNavICSupported : bool;
  satellites : list SatelliteInfo
}.
End SatelliteStatusEvent.

Module MeasurementsEvent.
Record t : Type := {
  carrierFrequencies : list Q;
  isDualFrequencySupported : bool
}.
End MeasurementsEvent.

(** *** [updateSatelliteStatus] *)

Definition initialState : State :=
  {| gnssStatusCallback := false;
     gnssMeasurementsCallback := false;
     currentSatelliteCount := 0;
     satellitesUsedInFix := 0;
     averageSignalToNoiseRatio := 0;
     supportedConstellations := [];
     detectedFrequencies := [];
     satelliteDataList := [] |}.

(** The [SatelliteData] built for satellite [i]. *)
Definition satelliteDataOf (p : Platform) (cache : ReflectionCache)
    (s : GnssStatus.satellite) : SatelliteData :=
  let constellation := GnssStatus.getConstellationType s in
  {| svid := GnssStatus.getSvid s;
     constellationType := constellation;
     constellationName := getConstellationName constellation;
     hasEphemeris := GnssStatus.hasEphemerisData s;
     hasAlmanac := GnssStatus.hasAlmanacData s;
     usedInFix := GnssStatus.usedInFix s;
     cn0DbHz :=
       if Z.leb VERSION_CODES_N (SDK_INT p) && safeHasCn0DbHz cache s
       then Some (safeGetCn0DbHz cache s) else None;
     elevation :=
       if Z.leb VERSION_CODES_N (SDK_INT p) && safeHasElevationDegrees cache s
       then Some (safeGetElevationDegrees cache s) else None;
     azimuth :=
       if Z.leb VERSION_CODES_N (SDK_INT p) && safeHasAzimuthDegrees cache s
       then Some (safeGetAzimuthDegrees cache s) else None;
     carrierFrequencyHz :=
       if supportsCarrierFrequency p && GnssStatus.hasCarrierFrequencyHz s
       then Some (GnssStatus.getCarrierFrequencyHz s) else None |}.

(** One turn of the loop over the satellites: the module's fields and the
    local list [signalStrengths]. *)
Definition satelliteLoopStep (p : Platform) (cache : ReflectionCache)
    (acc : State * list Q) (s : GnssStatus.satellite) : State * list Q :=
  let st := fst acc in
  let signalStrengths := snd acc in
  let satelliteInfo := satelliteDataOf p cache s in
  ({| gnssStatusCallback := gnssStatusCallback st;
      gnssMeasurementsCallback := gnssMeasurementsCallback st;
      currentSatelliteCount := currentSatelliteCount st;
      satellitesUsedInFix :=
        if GnssStatus.usedInFix s then (satellitesUsedInFix st + 1)%Z
        else satellitesUsedInFix st;
      averageSignalToNoiseRatio := averageSignalToNoiseRatio st;
      supportedConstellations :=
        hashSetAddInt (GnssStatus.getConstellationType s)
          (supportedConstellations st);
      detectedFrequencies := detectedFrequencies st;
      satelliteDataList := (satelliteDataList st ++ [satelliteInfo])%list |},
   match cn0DbHz satelliteInfo with
   | Some cn0 => (signalStrengths ++ [cn0])%list
   | None => signalStrengths
   end).

(** [signalStrengths.average()], or 0.0 for an empty list *)
Definition averageOrZero (signalStrengths : list Q) : Q :=
  match signalStrengths with
  | [] => 0
  | _ :: _ =>
      fold_left Qplus signalStrengths 0
      / inject_Z (Z.of_nat (length signalStrengths))
  end.

(** The module's fields after the callback, and the payload of the event
    [onSatelliteStatusChanged] that it sends. *)
Definition updateSatelliteStatus (p : Platform) (cache : ReflectionCache)
    (status : list GnssStatus.satellite) (st : State)
  : State * SatelliteStatusEvent.t :=
  let st0 :=
    {| gnssStatusCallback := gnssStatusCallback st;
       gnssMeasurementsCallback := gnssMeasurementsCallback st;
       currentSatelliteCount := Z.of_nat (length status);
       satellitesUsedInFix := 0;
       averageSignalToNoiseRatio := averageSignalToNoiseRatio st;
       supportedConstellations := [];
       detectedFrequencies := detectedFrequencies st;
       satelliteDataList := [] |} in
  let looped := fold_left (satelliteLoopStep p cache) status (st0, []) in
  let st1 := fst looped in
  let signalStrengths := snd looped in
  let st2 :=
    {| gnssStatusCallback := gnssStatusCallback st1;
       gnssMeasurementsCallback := gnssMeasurementsCallback st1;
       currentSatelliteCount := currentSatelliteCount st1;
       satellitesUsedInFix := satellitesUsedInFix st1;
       averageSignalToNoiseRatio := averageOrZero signalStrengths;
       supportedConstellations := supportedConstellations st1;
       detectedFrequencies := detectedFrequencies st1;
       satelliteDataList := satelliteDataList st1 |} in
  (st2,
   {| SatelliteStatusEvent.satellitesVisible := currentSatelliteCount st2;
      SatelliteStatusEvent.satellitesUsedInFix := satellitesUsedInFix st2;
      SatelliteStatusEvent.averageSignalToNoiseRatio :=
        averageSignalToNoiseRatio st2;
      SatelliteStatusEvent.supportedConstellations :=
        map getConstellationName (supportedConstellations st2);
      SatelliteStatusEvent.isNavICSupported :=
        existsb (Z.eqb CONSTELLATION_IRNSS) (supportedConstellations st2);
      SatelliteStatusEvent.satellites :=
        map toWritableMap (satelliteDataList st2) |}).

(** *** [updateMeasurements] *)

Definition measurementLoopStep (p : Platform) (frequencies : list Q)
    (measurement : GnssMeasurement.t) : list Q :=
  if Z.leb VERSION_CODES_O (SDK_INT p) then
    if GnssMeasurement.hasCarrierFrequencyHz measurement then
      let frequencyMHz :=
        GnssMeasurement.carrierFrequencyHz measurement / 1000000 in
      hashSetAddDouble frequencyMHz frequencies
    else frequencies
  else frequencies.

(** The module's fields after the callback, and the payload of the event
    [onMeasurementsChanged] when one is sent. *)
Definition updateMeasurements (p : Platform)
    (measurements : list GnssMeasurement.t) (st : State)
  : State * option MeasurementsEvent.t :=
  if Z.leb VERSION_CODES_N (SDK_INT p) then
    let frequencies := fold_left (measurementLoopStep p) measurements [] in
    ({| gnssStatusCallback := gnssStatusCallback st;
        gnssMeasurementsCallback := gnssMeasurementsCallback st;
        currentSatelliteCount := currentSatelliteCount st;
        satellitesUsedInFix := satellitesUsedInFix st;
        averageSignalToNoiseRatio := averageSignalToNoiseRatio st;
        supportedConstellations := supportedConstellations st;
        detectedFrequencies := frequencies;
        satelliteDataList := satelliteDataList st |},
     Some
       {| MeasurementsEvent.carrierFrequencies := frequencies;
          MeasurementsEvent.isDualFrequencySupported :=
            existsb indicatesDualFrequency frequencies |})
  else (st, None).

(** *** [stopListening] *)

(** What the two unregistration calls do. *)
Record Unregistration : Type := {
  unregisterGnssStatusCallback : Exceptional unit;
  unregisterGnssMeasurementsCallback : Exceptional unit
}.

Definition withoutStatusCallback (st : State) : State :=
  {| gnssStatusCallback := false;
     gnssMeasurementsCallback := gnssMeasurementsCallback st;
     currentSatelliteCount := currentSatelliteCount st;
     satellitesUsedInFix := satellitesUsedInFix st;
     averageSignalToNoiseRatio := averageSignalToNoiseRatio st;
     supportedConstellations := supportedConstellations st;
     detectedFrequencies := detectedFrequencies st;
     satelliteDataList := satelliteDataList st |}.

Definition withoutMeasurementsCallback (st : State) : State :=
  {| gnssStatusCallback := gnssStatusCallback st;
     gnssMeasurementsCallback := false;
     currentSatelliteCount := currentSatelliteCount st;
     satellitesUsedInFix := satellitesUsedInFix st;
     averageSignalToNoiseRatio := averageSignalToNoiseRatio st;
     supportedConstellations := supportedConstellations st;
     detectedFrequencies := detectedFrequencies st;
     satelliteDataList := satelliteDataList st |}.

(** Clear cached data *)
Definition cleared (st : State) : State :=
  {| gnssStatusCallback := gnssStatusCallback st;
     gnssMeasurementsCallback := gnssMeasurementsCallback st;
     currentSatelliteCount := 0;
     satellitesUsedInFix := 0;
     averageSignalToNoiseRatio := 0;
     supportedConstellations := [];
     detectedFrequencies := [];
     satelliteDataList := [] |}.

Definition stopListeningFailed (message : string) : Settled unit :=
  Rejected "STOP_LISTENING_ERROR" ("Failed to stop listening: " ++ message).

Definition stopListening (p : Platform) (u : Unregistration) (st : State)
  : Settled unit * State :=
  let afterStatus : Exceptional unit * State :=
    if gnssStatusCallback st then
      match unregisterGnssStatusCallback u with
      | inl message => (inl message, st)
      | inr _ => (inr tt, withoutStatusCallback st)
      end
    else (inr tt, st) in
  match afterStatus with
  | (inl message, st1) => (stopListeningFailed message, st1)
  | (inr _, st1) =>
      let afterMeasurements : Exceptional unit * State :=
        if Z.leb VERSION_CODES_N (SDK_INT p) then
          if gnssMeasurementsCallback st1 then
            match unregisterGnssMeasurementsCallback u with
            | inl message => (inl message, st1)
            | inr _ => (inr tt, withoutMeasurementsCallback st1)
            end
          else (inr tt, st1)
        else (inr tt, st1) in
      match afterMeasurements with
      | (inl message, st2) => (stopListeningFailed message, st2)
      | (inr _, st2) => (Resolved tt, cleared st2)
      end
  end.

(** [getConstantExample] *)
Definition getConstantExample : Q := GPS_L5_FREQUENCY.

End Native.

(** ** The classifier read as a table scan

    The branches of [identifyFrequencyBand], in the order in which the
    source tests them, as a list of band descriptors; a descriptor is a
    nominal frequency or a range. *)

Inductive BandWindow : Type :=
| Nominal (center : Q)
| Range (lo hi : Q).

Record BandDescriptor : Type := {
  window : BandWindow;
  descriptorConstellation : string;
  descriptorBand : string;
  descriptorDual : bool
}.

Definition inWindow (w : BandWindow) (freq tolerance : Q) : bool :=
  match w with
  | Nominal center => Math_abs (freq - center) <=? tolerance
  | Range lo hi => (freq >=? lo - tolerance) && (freq <=? hi + tolerance)
  end.

Definition matches (freq tolerance : Q) (d : BandDescriptor) : bool :=
  inWindow (window d) freq tolerance.

Definition declaredBands : list BandDescriptor :=
  [ {| window := Nominal CarrierFrequencies.GPS_L1;
       descriptorConstellation := "GPS"; descriptorBand := "L1";
       descriptorDual := false |};
    {| window := Nominal CarrierFrequencies.GPS_L2;
       descriptorConstellation := "GPS"; descriptorBand := "L2";
       descriptorDual := true |};
    {| window := Nominal CarrierFrequencies.GPS_L5;
       descriptorConstellation := "GPS"; descriptorBand := "L5";
       descriptorDual := true |};
    {| window := Range CarrierFrequencies.GLONASS_L1_MIN
                       CarrierFrequencies.GLONASS_L1_MAX;
       descriptorConstellation := "GLONASS"; descriptorBand := "L1";
       descriptorDual := false |};
    {| window := Range CarrierFrequencies.GLONASS_L2_MIN
                       CarrierFrequencies.GLONASS_L2_MAX;
       descriptorConstellation := "GLONASS"; descriptorBand := "L2";
       descriptorDual := true |};
    {| window := Nominal CarrierFrequencies.GLONASS_L5;
       descriptorConstellation := "GLONASS"; descriptorBand := "L5";
       descriptorDual := true |};
    {| window := Nominal CarrierFrequencies.GALILEO_E1;
       descriptorConstellation := "GALILEO"; descriptorBand := "E1";
       descriptorDual := false |};
    {| window := Nominal CarrierFrequencies.GALILEO_E5a;
       descriptorConstellation := "GALILEO"; descriptorBand := "E5a";
       descriptorDual := true |};
    {| window := Nominal CarrierFrequencies.GALILEO_E5b;
       descriptorConstellation := "GALILEO"; descriptorBand := "E5b";
       descriptorDual := true |};
    {| window := Nominal CarrierFrequencies.BEIDOU_B1;
       descriptorConstellation := "BEIDOU"; descriptorBand := "B1";
       descriptorDual := false |};
    {| window := Nominal CarrierFrequencies.BEIDOU_B2a;
       descriptorConstellation := "BEIDOU"; descriptorBand := "B2a";
       descriptorDual := true |};
    {| window := Nominal CarrierFrequencies.BEIDOU_B3;
       descriptorConstellation := "BEIDOU"; descriptorBand := "B3";
       descriptorDual := true |};
    {| window := Nominal CarrierFrequencies.QZSS_L1;
       descriptorConstellation := "QZSS"; descriptorBand := "L1";
       descriptorDual := false |};
    {| window := Nominal CarrierFrequencies.QZSS_L5;
       descriptorConstellation := "QZSS"; descriptorBand := "L5";
       descriptorDual := true |};
    {| window := Nominal CarrierFrequencies.NAVIC_L5;
       descriptorConstellation := "NAVIC"; descriptorBand := "L5";
       descriptorDual := true |};
    {| window := Nominal CarrierFrequencies.NAVIC_S;
       descriptorConstellation := "NAVIC"; descriptorBand := "S";
       descriptorDual := true |};
    {| window := Nominal CarrierFrequencies.SBAS_L1;
       descriptorConstellation := "SBAS"; descriptorBand := "L1";
       descriptorDual := false |};
    {| window := Nominal CarrierFrequencies.SBAS_L5;
       descriptorConstellation := "SBAS"; descriptorBand := "L5";
       descriptorDual := true |} ].

Definition unknownBand (freq : Q) : FrequencyBandInfo :=
  {| frequency := freq; constellation := "UNKNOWN"; band := "UNKNOWN";
     isDualFrequency := false |}.

Definition bandInfoOf (freq : Q) (d : BandDescriptor) : FrequencyBandInfo :=
  {| frequency := freq;
     constellation := descriptorConstellation d;
     band := descriptorBand d;
     isDualFrequency := descriptorDual d |}.

(** Linear scan, first matching descriptor wins. *)
Definition classifyBy (table : list BandDescriptor) (freq tolerance : Q)
  : FrequencyBandInfo :=
  match find (matches freq tolerance) table with
  | Some d => bandInfoOf freq d
  | None => unknownBand freq
  end.

(** The reference table of section 4.1 of the specification, row by row:
    the primary band of a constellation, then its secondary bands, with the
    constellations and bands labelled as the classifier labels them. *)
Definition referenceTable : list BandDescriptor :=
  [ {| window := Nominal 1575.42;
       descriptorConstellation := "GPS"; descriptorBand := "L1";
       descriptorDual := false |};
    {| window := Nominal 1227.6;
       descriptorConstellation := "GPS"; descriptorBand := "L2";
       descriptorDual := true |};
    {| window := Nominal 1176.45;
       descriptorConstellation := "GPS"; descriptorBand := "L5";
       descriptorDual := true |};
    {| window := Range 1598.0625 1605.375;
       descriptorConstellation := "GLONASS"; descriptorBand := "L1";
       descriptorDual := false |};
    {| window := Range 1242.9375 1248.625;
       descriptorConstellation := "GLONASS"; descriptorBand := "L2";
       descriptorDual := true |};
    {| window := Nominal 1176.45;
       descriptorConstellation := "GLONASS"; descriptorBand := "L5";
       descriptorDual := true |};
    {| window := Nominal 1575.42;
       descriptorConstellation := "GALILEO"; descriptorBand := "E1";
       descriptorDual := false |};
    {| window := Nominal 1176.45;
       descriptorConstellation := "GALILEO"; descriptorBand := "E5a";
       descriptorDual := true |};
    {| window := Nominal 1207.14;
       descriptorConstellation := "GALILEO"; descriptorBand := "E5b";
       descriptorDual := true |};
    {| window := Nominal 1191.795;
       descriptorConstellation := "GALILEO"; descriptorBand := "E5";
       descriptorDual := true |};
    {| window := Nominal 1278.75;
       descriptorConstellation := "GALILEO"; descriptorBand := "E6";
       descriptorDual := true |};
    {| window := Nominal 1561.098;
       descriptorConstellation := "BEIDOU"; descriptorBand := "B1";
       descriptorDual := false |};
    {| window := Nominal 1176.45;
       descriptorConstellation := "BEIDOU"; descriptorBand := "B2a";
       descriptorDual := true |};
    {| window := Nominal 1207.14;
       descriptorConstellation := "BEIDOU"; descriptorBand := "B2";
       descriptorDual := true |};
    {| window := Nominal 1268.52;
       descriptorConstellation := "BEIDOU"; descriptorBand := "B3";
       descriptorDual := true |};
    {| window := Nominal 1575.42;
       descriptorConstellation := "QZSS"; descriptorBand := "L1";
       descriptorDual := false |};
    {| window := Nominal 1227.6;
       descriptorConstellation := "QZSS"; descriptorBand := "L2";
       descriptorDual := true |};
    {| window := Nominal 1176.45;
       descriptorConstellation := "QZSS"; descriptorBand := "L5";
       descriptorDual := true |};
    {| window := Nominal 1278.75;
       descriptorConstellation := "QZSS"; descriptorBand := "LEX";
       descriptorDual := true |};
    {| window := Nominal 1176.45;
       descriptorConstellation := "NAVIC"; descriptorBand := "L5";
       descriptorDual := true |};
    {| window := Nominal 2492.028;
       descriptorConstellation := "NAVIC"; descriptorBand := "S";
       descriptorDual := true |};
    {| window := Nominal 1575.42;
       descriptorConstellation := "SBAS"; descriptorBand := "L1";
       descriptorDual := false |};
    {| window := Nominal 1176.45;
       descriptorConstellation := "SBAS"; descriptorBand := "L5";
       descriptorDual := true |} ].

(** ** Sample data *)

(** A satellite record of which only the constellation name and the signal
    strength matter. *)
Definition satelliteNamed (name : string) (signal : option Q) : SatelliteInfo :=
  {| svid := 1; constellationType := 0; constellationName := name;
     cn0DbHz := signal; elevation := None; azimuth := None;
     hasEphemeris := false; hasAlmanac := false; usedInFix := false;
     carrierFrequencyHz := None |}.

(** A platform that grants the permission, reports the GPS provider as
    enabled and accepts every registration, at a given API level. *)
Definition grantingPlatform (sdk : Z) : Native.Platform :=
  {| Native.checkSelfPermission_granted := true;
     Native.SDK_INT := sdk;
     Native.isProviderEnabled := inr true;
     Native.registerGnssStatusCallback := inr tt;
     Native.registerGnssMeasurementsCallback := inr tt |}.

(** The module before it listens, with given constellation codes and
    detected frequencies in its two sets. *)
Definition sampleState (constellations : list Z) (frequencies : list Q)
  : Native.State :=
  {| Native.gnssStatusCallback := false;
     Native.gnssMeasurementsCallback := false;
     Native.currentSatelliteCount := 0;
     Native.satellitesUsedInFix := 0;
     Native.averageSignalToNoiseRatio := 0;
     Native.supportedConstellations := constellations;
     Native.detectedFrequencies := frequencies;
     Native.satelliteDataList := [] |}.

(** A satellite as the platform reports it: constellation code, use in the
    fix and signal strength given, no elevation, azimuth or carrier
    frequency. *)
Definition platformSatellite (constellation : Z) (used : bool) (cn0 : Q)
  : Native.GnssStatus.satellite :=
  {| Native.GnssStatus.getSvid := 1;
     Native.GnssStatus.getConstellationType := constellation;
     Native.GnssStatus.usedInFix := used;
     Native.GnssStatus.hasEphemerisData := true;
     Native.GnssStatus.hasAlmanacData := true;
     Native.GnssStatus.hasCn0DbHz := true;
     Native.GnssStatus.getCn0DbHz := cn0;
     Native.GnssStatus.hasElevationDegrees := false;
     Native.GnssStatus.getElevationDegrees := 0;
     Native.GnssStatus.hasAzimuthDegrees := false;
     Native.GnssStatus.getAzimuthDegrees := 0;
     Native.GnssStatus.hasCarrierFrequencyHz := false;
     Native.GnssStatus.getCarrierFrequencyHz := 0 |}.

(** A measurement with a carrier frequency in Hz. *)
Definition measurementAt (hz : Q) : Native.GnssMeasurement.t :=
  {| Native.GnssMeasurement.hasCarrierFrequencyHz := true;
     Native.GnssMeasurement.carrierFrequencyHz := hz |}.

(** The cache of a class that declares all six accessors, and of one that
    declares none. *)
Definition allAccessors : Native.ReflectionCache :=
  Native.initReflection (fun _ => true).

Definition noAccessors : Native.ReflectionCache :=
  Native.initReflection (fun _ => false).

(** Unregistration calls that return. *)
Definition unregistering : Native.Unregistration :=
  {| Native.unregisterGnssStatusCallback := inr tt;
     Native.unregisterGnssMeasurementsCallback := inr tt |}.

(** ** Counting *)

(** The value that a plain object holds under a key that was counted [n]
    times: no property at all for 0. *)
Definition countValue (n : nat) : option JsValue :=
  match n with
  | O => None
  | S _ => Some (JsNumber n)
  end.

(** The number of records with a given constellation name. *)
Definition countNamed (name : string) (satellites : list SatelliteInfo) : nat :=
  length (List.filter (fun sat => String.eqb (constellationName sat) name)
            satellites).

(** * Properties *)

(** ** The classifier is the scan of its declared bands *)

Lemma identifyFrequencyBand_scan (freq : Q) (tolerance : option Q) :
  identifyFrequencyBand freq tolerance
  = classifyBy declaredBands freq (default 1.0 tolerance).
Proof.
  unfold identifyFrequencyBand, classifyBy, declaredBands.
  generalize (default 1.0 tolerance); intros tol.
  cbn [find matches inWindow window].
  repeat match goal with
         | |- context [if ?c then _ else _] =>
             destruct c; [reflexivity|]
         end.
  reflexivity.
Qed.

Lemma matches_some (table : list BandDescriptor) (freq tolerance : Q)
    (d : BandDescriptor) :
  find (matches freq tolerance) table = Some d ->
  In d table /\ matches freq tolerance d = true.
Proof. apply find_some. Qed.

Lemma declared_constellation_known (d : BandDescriptor) :
  In d declaredBands -> descriptorConstellation d <> "UNKNOWN".
Proof.
  unfold declaredBands; cbn [In]; intros H.
  repeat (destruct H as [<- | H]; [cbn; discriminate|]).
  contradiction.
Qed.

(** A frequency is classified exactly when some declared band matches it. *)
Lemma classified_iff_some_match (freq : Q) (tolerance : option Q) :
  constellation (identifyFrequencyBand freq tolerance) <> "UNKNOWN"
  <-> exists d, In d declaredBands
                /\ matches freq (default 1.0 tolerance) d = true.
Proof.
  rewrite identifyFrequencyBand_scan; unfold classifyBy.
  destruct (find _ declaredBands) as [d|] eqn:Hfind.
  - apply matches_some in Hfind as [Hin Hm]. split.
    + intros _. exists d. split; assumption.
    + intros _. cbn. apply declared_constellation_known, Hin.
  - split.
    + cbn. intros H. contradiction H. reflexivity.
    + intros [d [Hin Hm]].
      pose proof (find_none _ _ Hfind d Hin) as Hnone.
      rewrite Hm in Hnone. discriminate.
Qed.

Lemma inWindow_widen (w : BandWindow) (freq t t' : Q) :
  t <= t' -> inWindow w freq t = true -> inWindow w freq t' = true.
Proof.
  intros Hle. destruct w as [center | lo hi]; cbn [inWindow].
  - rewrite !Qle_bool_iff. intros H. eapply Qle_trans; eassumption.
  - rewrite !andb_true_iff, !Qle_bool_iff. intros [H1 H2]. split; lra.
Qed.

(** ** C3: shared nominal frequencies are resolved by declaration order *)

(** C3. [identifyFrequencyBand] returns the first descriptor, in the order of
    declaration, whose window holds the frequency; so 1176.45 MHz, a nominal
    that GPS L5 shares with six later descriptors, is GPS L5 with the
    dual-frequency flag set, and 1575.42 MHz is the L1 band of GPS with the
    flag cleared. *)
Theorem identifyFrequencyBand_first_match_wins :
  (forall (freq : Q) (tolerance : option Q) (before after : list BandDescriptor)
          (d : BandDescriptor),
      declaredBands = (before ++ d :: after)%list ->
      forallb (fun d' => negb (matches freq (default 1.0 tolerance) d')) before
      = true ->
      matches freq (default 1.0 tolerance) d = true ->
      identifyFrequencyBand freq tolerance = bandInfoOf freq d)
  /\ identifyFrequencyBand 1176.45 None
     = {| frequency := 1176.45; constellation := "GPS"; band := "L5";
          isDualFrequency := true |}
  /\ length (List.filter (matches 1176.45 1.0) declaredBands) = 7%nat
  /\ identifyFrequencyBand 1575.42 None
     = {| frequency := 1575.42; constellation := "GPS"; band := "L1";
          isDualFrequency := false |}
  /\ length (List.filter (matches 1575.42 1.0) declaredBands) = 4%nat.
Proof.
  split; [|repeat split; vm_compute; reflexivity].
  intros freq tolerance before after d Hsplit Hbefore Hd.
  rewrite identifyFrequencyBand_scan; unfold classifyBy.
  rewrite Hsplit. clear Hsplit.
  induction before as [|b before IH]; cbn [app find].
  - rewrite Hd. reflexivity.
  - cbn [forallb] in Hbefore. apply andb_true_iff in Hbefore as [Hb Hrest].
    apply negb_true_iff in Hb. rewrite Hb. apply IH, Hrest.
Qed.

(** ** C5: classification is total *)

Lemma declared_in_reference (d : BandDescriptor) :
  In d declaredBands -> In d referenceTable.
Proof.
  unfold declaredBands; cbn [In]; intros H.
  repeat (destruct H as [<- | H];
          [unfold referenceTable; cbn [In];
           repeat (first [left; reflexivity | right]) |]).
  contradiction.
Qed.

(** C5. For every frequency and every tolerance (given or left to its
    default) [identifyFrequencyBand] yields a band information value for that
    frequency: the one of a declared band that matches, or, when no declared
    band matches (in particular when no row of the reference table does), the
    value with constellation and band "UNKNOWN" and the dual-frequency flag
    cleared. *)
Theorem identifyFrequencyBand_total (freq : Q) (tolerance : option Q) :
  exists info : FrequencyBandInfo,
    identifyFrequencyBand freq tolerance = info
    /\ frequency info = freq
    /\ ((exists d, In d declaredBands
                   /\ matches freq (default 1.0 tolerance) d = true
                   /\ info = bandInfoOf freq d)
        \/ ((forall d, In d declaredBands ->
                       matches freq (default 1.0 tolerance) d = false)
            /\ info = {| frequency := freq; constellation := "UNKNOWN";
                         band := "UNKNOWN"; isDualFrequency := false |}))
    /\ ((forall d, In d referenceTable ->
                   matches freq (default 1.0 tolerance) d = false) ->
        info = {| frequency := freq; constellation := "UNKNOWN";
                  band := "UNKNOWN"; isDualFrequency := false |}).
Proof.
  exists (identifyFrequencyBand freq tolerance).
  split; [reflexivity|].
  rewrite identifyFrequencyBand_scan; unfold classifyBy.
  destruct (find _ declaredBands) as [d|] eqn:Hfind.
  - apply matches_some in Hfind as [Hin Hm].
    split; [reflexivity|]. split.
    + left. exists d. auto.
    + intros Hnone. apply declared_in_reference, Hnone in Hin.
      rewrite Hin in Hm. discriminate.
  - split; [reflexivity|]. split.
    + right. split; [|reflexivity].
      intros d Hin. apply (find_none _ _ Hfind d Hin).
    + intros _. reflexivity.
Qed.

(** ** C4: dual-frequency support of a list of frequencies *)

(** C4. [isDualFrequencySupported] holds of a list exactly when
    [identifyFrequencyBand], with its default tolerance, sets the
    dual-frequency flag for at least one element; it fails on the empty list
    and on [1575.42] alone, and holds on [1575.42; 1176.45]. *)
Theorem isDualFrequencySupported_iff_some_band_is_dual :
  (forall carrierFrequencies : list Q,
      isDualFrequencySupported carrierFrequencies = true
      <-> exists freq, In freq carrierFrequencies
                       /\ isDualFrequency (identifyFrequencyBand freq None)
                          = true)
  /\ isDualFrequencySupported [] = false
  /\ isDualFrequencySupported [1575.42; 1176.45] = true
  /\ isDualFrequencySupported [1575.42] = false.
Proof.
  split; [|repeat split; vm_compute; reflexivity].
  intros carrierFrequencies. unfold isDualFrequencySupported.
  rewrite existsb_exists. reflexivity.
Qed.

(** ** C9: widening the tolerance keeps a frequency classified *)

(** C9. If a frequency is classified (its constellation is not "UNKNOWN")
    with a tolerance [t >= 0], it is classified with every tolerance
    [t' >= t]. *)
Theorem identifyFrequencyBand_monotone_in_tolerance (freq t t' : Q) :
  0 <= t -> t <= t' ->
  constellation (identifyFrequencyBand freq (Some t)) <> "UNKNOWN" ->
  constellation (identifyFrequencyBand freq (Some t')) <> "UNKNOWN".
Proof.
  intros _ Hle. rewrite !classified_iff_some_match. cbn [default].
  intros [d [Hin Hm]]. exists d. split; [assumption|].
  unfold matches in *. eapply inWindow_widen; eassumption.
Qed.

(** A wider tolerance may select an earlier branch: 1560.5 MHz is BeiDou B1
    with the tolerance 1 and GPS L1 with the tolerance 20. *)
Lemma wider_tolerance_may_change_the_band :
  identifyFrequencyBand 1560.5 (Some 1)
  = {| frequency := 1560.5; constellation := "BEIDOU"; band := "B1";
       isDualFrequency := false |}
  /\ identifyFrequencyBand 1560.5 (Some 20)
     = {| frequency := 1560.5; constellation := "GPS"; band := "L1";
          isDualFrequency := false |}.
Proof. split; vm_compute; reflexivity. Qed.

(** At 1177.2 MHz the tolerance 1 finds GPS L5, and so does the tolerance 2. *)
Lemma identifyFrequencyBand_monotone_in_tolerance_witness :
  constellation (identifyFrequencyBand 1177.2 (Some 1)) = "GPS"
  /\ constellation (identifyFrequencyBand 1177.2 (Some 2)) <> "UNKNOWN".
Proof.
  split; [vm_compute; reflexivity|].
  apply (identifyFrequencyBand_monotone_in_tolerance 1177.2 1 2).
  - unfold Qle; cbn; lia.
  - unfold Qle; cbn; lia.
  - vm_compute. discriminate.
Defined.

(** ** C1: the classifier against the reference table *)

Lemma within_iff (freq center t : Q) :
  (Math_abs (freq - center) <=? t) = true
  <-> center - t <= freq /\ freq <= center + t.
Proof.
  unfold Math_abs. rewrite Qle_bool_iff, Qabs_Qle_condition.
  split; intros [H1 H2]; split; lra.
Qed.

Lemma between_iff (freq lo hi t : Q) :
  (freq >=? lo - t) && (freq <=? hi + t) = true
  <-> lo - t <= freq /\ freq <= hi + t.
Proof. rewrite andb_true_iff, !Qle_bool_iff. reflexivity. Qed.

Ltac next_branch :=
  match goal with
  | |- context [if ?c then _ else _] =>
      lazymatch c with
      | true => fail
      | false => fail
      | _ => destruct c; cbv iota; [reflexivity|]
      end
  end.

Ltac unfold_frequencies :=
  unfold CarrierFrequencies.GPS_L1, CarrierFrequencies.GPS_L2,
    CarrierFrequencies.GPS_L5, CarrierFrequencies.GLONASS_L1_MIN,
    CarrierFrequencies.GLONASS_L1_MAX, CarrierFrequencies.GLONASS_L2_MIN,
    CarrierFrequencies.GLONASS_L2_MAX, CarrierFrequencies.GLONASS_L5,
    CarrierFrequencies.GALILEO_E1, CarrierFrequencies.GALILEO_E5a,
    CarrierFrequencies.GALILEO_E5b, CarrierFrequencies.BEIDOU_B1,
    CarrierFrequencies.BEIDOU_B2a, CarrierFrequencies.BEIDOU_B3,
    CarrierFrequencies.QZSS_L1, CarrierFrequencies.QZSS_L5,
    CarrierFrequencies.NAVIC_L5, CarrierFrequencies.NAVIC_S,
    CarrierFrequencies.SBAS_L1, CarrierFrequencies.SBAS_L5 in *.

(** Away from 1191.795 MHz and 1278.75 MHz the classifier is the scan of the
    reference table. *)
Lemma identifyFrequencyBand_agrees_with_reference
    (freq : Q) (tolerance : option Q) :
  inWindow (Nominal 1191.795) freq (default 1.0 tolerance) = false ->
  inWindow (Nominal 1278.75) freq (default 1.0 tolerance) = false ->
  identifyFrequencyBand freq tolerance
  = classifyBy referenceTable freq (default 1.0 tolerance).
Proof.
  unfold identifyFrequencyBand, classifyBy, referenceTable.
  generalize (default 1.0 tolerance); intros tol.
  cbn [find matches inWindow window]. unfold_frequencies.
  intros HE5 HE6. rewrite HE5, HE6. cbv iota.
  repeat next_branch.
  reflexivity.
Qed.

(** C1. The reference table classifies 1191.795 MHz as Galileo E5 and
    1278.75 MHz as Galileo E6 (QZSS LEX has the same nominal), both
    dual-frequency bands; [identifyFrequencyBand] has no branch for either
    and answers "UNKNOWN" with the flag cleared.  At the other points the
    classifier follows the table: 2492.028 MHz is the NavIC S band, the two
    ends of the GLONASS L2 range are GLONASS L2, and 1.1 MHz below the range
    nothing matches. *)
Theorem identifyFrequencyBand_misses_E5_and_E6 :
  classifyBy referenceTable 1191.795 1.0
  = {| frequency := 1191.795; constellation := "GALILEO"; band := "E5";
       isDualFrequency := true |}
  /\ identifyFrequencyBand 1191.795 None
     = {| frequency := 1191.795; constellation := "UNKNOWN";
          band := "UNKNOWN"; isDualFrequency := false |}
  /\ classifyBy referenceTable 1278.75 1.0
     = {| frequency := 1278.75; constellation := "GALILEO"; band := "E6";
          isDualFrequency := true |}
  /\ identifyFrequencyBand 1278.75 None
     = {| frequency := 1278.75; constellation := "UNKNOWN";
          band := "UNKNOWN"; isDualFrequency := false |}
  /\ identifyFrequencyBand 2492.028 None
     = {| frequency := 2492.028; constellation := "NAVIC"; band := "S";
          isDualFrequency := true |}
  /\ identifyFrequencyBand 1242.9375 None
     = {| frequency := 1242.9375; constellation := "GLONASS"; band := "L2";
          isDualFrequency := true |}
  /\ identifyFrequencyBand 1248.625 None
     = {| frequency := 1248.625; constellation := "GLONASS"; band := "L2";
          isDualFrequency := true |}
  /\ constellation (identifyFrequencyBand (1242.9375 - 1.1) None) = "UNKNOWN".
Proof. repeat split; vm_compute; reflexivity. Qed.

(** ** C2: the fine and the coarse dual-frequency checks *)

Lemma indicatesDualFrequency_near (freq center : Q) :
  In center (map fst Native.DUAL_FREQUENCY_BANDS) ->
  center - 10 <= freq -> freq <= center + 10 ->
  Native.indicatesDualFrequency freq = true.
Proof.
  intros Hin Hlo Hhi. unfold Native.indicatesDualFrequency.
  apply orb_true_iff. left. apply existsb_exists. exists center.
  split; [assumption|].
  apply Qle_bool_iff, Qabs_Qle_condition. unfold Native.FREQ_TOLERANCE.
  split; lra.
Qed.

Lemma indicatesDualFrequency_L2_range (freq : Q) :
  1242.9375 - 10 <= freq -> freq <= 1248.625 + 10 ->
  Native.indicatesDualFrequency freq = true.
Proof.
  intros Hlo Hhi. unfold Native.indicatesDualFrequency.
  apply orb_true_iff. right.
  unfold Native.GLONASS_L2_MIN, Native.GLONASS_L2_MAX, Native.FREQ_TOLERANCE.
  apply andb_true_iff. rewrite !Qle_bool_iff. split; lra.
Qed.

(** Whatever the fine check accepts, the coarse check accepts. *)
Lemma fine_check_implies_coarse_check (freq : Q) :
  isDualFrequency (identifyFrequencyBand freq None) = true ->
  Native.indicatesDualFrequency freq = true.
Proof.
  rewrite identifyFrequencyBand_scan; unfold classifyBy. cbn [default].
  destruct (find _ declaredBands) as [d|] eqn:Hfind; [|discriminate].
  apply matches_some in Hfind as [Hin Hm]. cbn [bandInfoOf isDualFrequency].
  revert Hm. unfold declaredBands in Hin; cbn [In] in Hin.
  unfold matches.
  repeat (destruct Hin as [<- | Hin];
          [cbn [window descriptorDual inWindow]; unfold_frequencies;
           intros Hm Hdual; try discriminate Hdual;
           lazymatch type of Hm with
           | (Math_abs (_ - ?center) <=? _) = true =>
               apply within_iff in Hm as [Hlo Hhi];
               apply (indicatesDualFrequency_near freq center);
               [cbn; repeat (first [left; reflexivity | right]) | lra | lra]
           | _ =>
               apply between_iff in Hm as [Hlo Hhi];
               apply indicatesDualFrequency_L2_range; lra
           end |]).
  contradiction.
Qed.

(** C2. At 1278.75 MHz, the nominal frequency of Galileo E6 and QZSS LEX
    in the reference table, and at 1191.795 MHz, that of Galileo E5, the
    coarse check of the native status query reports dual-frequency support
    and [isDualFrequencySupported] does not. *)
Theorem dual_frequency_checks_disagree_at_E6_and_E5 :
  (forall (p : Native.Platform) (st : Native.State) (result : Native.StatusMap),
      Native.detectedFrequencies st = [1278.75]
      \/ Native.detectedFrequencies st = [1191.795] ->
      Native.getGNSSStatus p st = Resolved result ->
      Native.isDualFrequencySupported result = true
      /\ isDualFrequencySupported (Native.carrierFrequencies result) = false)
  /\ In 1278.75 (map fst Native.DUAL_FREQUENCY_BANDS)
  /\ existsb Native.indicatesDualFrequency [1278.75] = true
  /\ isDualFrequencySupported [1278.75] = false
  /\ In 1191.795 (map fst Native.DUAL_FREQUENCY_BANDS)
  /\ existsb Native.indicatesDualFrequency [1191.795] = true
  /\ isDualFrequencySupported [1191.795] = false.
Proof.
  split.
  - intros p st result Hfreq. unfold Native.getGNSSStatus.
    destruct (negb (Native.hasLocationPermission p)); [discriminate|].
    destruct (Native.isProviderEnabled p) as [message | enabled];
      [discriminate|].
    intros [= <-].
    cbn [Native.isDualFrequencySupported Native.carrierFrequencies].
    destruct Hfreq as [-> | ->]; split; vm_compute; reflexivity.
  - repeat split; try (vm_compute; reflexivity);
      cbn; repeat (first [left; reflexivity | right]).
Qed.

Ltac bounds_of H :=
  first [apply within_iff in H | apply between_iff in H];
  destruct H as [? ?].

Ltac scan_reference Hm :=
  repeat match goal with
         | |- context [if ?c then _ else _] =>
             lazymatch c with
             | true => fail
             | false => fail
             | _ =>
                 let E := fresh "E" in
                 destruct c eqn:E; cbv iota;
                 [ first [reflexivity | exfalso; bounds_of E; lra]
                 | try discriminate Hm ]
             end
         end.

(** Within the default tolerance of a dual-frequency row of the reference
    table other than Galileo E5, Galileo E6 and QZSS LEX, both checks report
    dual-frequency support. *)
Lemma checks_agree_away_from_E5_and_E6 (freq : Q) (d : BandDescriptor) :
  In d referenceTable -> descriptorDual d = true ->
  matches freq 1.0 d = true ->
  inWindow (Nominal 1191.795) freq 1.0 = false ->
  inWindow (Nominal 1278.75) freq 1.0 = false ->
  isDualFrequencySupported [freq] = true
  /\ existsb Native.indicatesDualFrequency [freq] = true.
Proof.
  intros Hin Hdual Hm HE5 HE6.
  assert (Hfine : isDualFrequency (identifyFrequencyBand freq None) = true).
  { rewrite (identifyFrequencyBand_agrees_with_reference freq None HE5 HE6).
    cbn [default]. unfold classifyBy.
    revert Hdual Hm. unfold referenceTable in Hin; cbn [In] in Hin.
    unfold matches at 1.
    repeat (destruct Hin as [<- | Hin];
            [cbn [window descriptorDual]; intros Hdual Hm;
             try discriminate Hdual;
             pose proof Hm as Hb; cbn [inWindow] in Hb, Hm, HE5, HE6;
             bounds_of Hb;
             unfold referenceTable; cbn [find matches inWindow window];
             try (rewrite HE5 in Hm; discriminate Hm);
             try (rewrite HE6 in Hm; discriminate Hm);
             rewrite ?HE5, ?HE6; cbv iota;
             scan_reference Hm |]).
    destruct Hin. }
  unfold isDualFrequencySupported. cbn [existsb].
  rewrite Hfine, (fine_check_implies_coarse_check freq Hfine). split; reflexivity.
Qed.

(** ** C7: filtering by signal strength *)

Lemma hasSignalAtLeast_iff (minCn0 : Q) (sat : SatelliteInfo) :
  hasSignalAtLeast minCn0 sat = true
  <-> exists cn0, cn0DbHz sat = Some cn0 /\ minCn0 <= cn0.
Proof.
  unfold hasSignalAtLeast. destruct (cn0DbHz sat) as [cn0|].
  - rewrite Qle_bool_iff. split.
    + intros H. exists cn0. split; [reflexivity | assumption].
    + intros [c [Hc Hle]]. injection Hc as ->. assumption.
  - split; [discriminate|]. intros [c [Hc _]]. discriminate.
Qed.

Lemma filter_is_sublist {A : Type} (keep : A -> bool) (l : list A) :
  sublist (List.filter keep l) l.
Proof.
  induction l as [|x l IH]; cbn [List.filter].
  - constructor.
  - destruct (keep x); constructor; assumption.
Qed.

(** C7. For every list and every threshold, the result holds exactly the
    records of the list whose signal is present and at least the threshold,
    in the order of the list; a record without a signal is in no result. *)
Theorem getSatellitesWithGoodSignal_exact
    (satellites : list SatelliteInfo) (minCn0 : Q) :
  (forall sat,
      In sat (getSatellitesWithGoodSignal satellites (Some minCn0))
      <-> In sat satellites
          /\ exists cn0, cn0DbHz sat = Some cn0 /\ minCn0 <= cn0)
  /\ (forall sat,
         cn0DbHz sat = None ->
         ~ In sat (getSatellitesWithGoodSignal satellites (Some minCn0)))
  /\ sublist (getSatellitesWithGoodSignal satellites (Some minCn0)) satellites
  /\ length (getSatellitesWithGoodSignal satellites (Some minCn0))
     = count_occ bool_dec (map (hasSignalAtLeast minCn0) satellites) true.
Proof.
  unfold getSatellitesWithGoodSignal.
  change (default 20 (Some minCn0)) with minCn0.
  split; [|split; [|split]].
  - intros sat. rewrite filter_In, hasSignalAtLeast_iff. reflexivity.
  - intros sat Hnone Hin. apply filter_In in Hin as [_ Hin].
    apply hasSignalAtLeast_iff in Hin as [cn0 [Hc _]]. congruence.
  - apply filter_is_sublist.
  - induction satellites as [|sat l IH]; [reflexivity|].
    cbn [List.filter map count_occ].
    destruct (hasSignalAtLeast minCn0 sat); cbn [length];
      destruct (bool_dec _ true) as [Heq | Hne];
      first [discriminate Heq | contradiction Hne; reflexivity
            | rewrite IH; reflexivity].
Qed.

(** A record without a signal passes neither the threshold 0 nor a negative
    one, and the threshold that is left out is 20. *)
Lemma getSatellitesWithGoodSignal_examples :
  getSatellitesWithGoodSignal
    [satelliteNamed "GPS" None; satelliteNamed "GPS" (Some 0)] (Some 0)
  = [satelliteNamed "GPS" (Some 0)]
  /\ getSatellitesWithGoodSignal
       [satelliteNamed "GPS" None; satelliteNamed "GPS" (Some 0)] (Some (-5))
     = [satelliteNamed "GPS" (Some 0)]
  /\ getSatellitesWithGoodSignal
       [satelliteNamed "GPS" (Some 19.9); satelliteNamed "GPS" (Some 20)] None
     = [satelliteNamed "GPS" (Some 20)].
Proof. repeat split. Qed.

(** ** C6: signal statistics *)

Lemma signalStrengthsOf_In (satellites : list SatelliteInfo) (cn0 : Q) :
  In cn0 (signalStrengthsOf satellites)
  <-> exists sat, In sat satellites /\ cn0DbHz sat = Some cn0.
Proof.
  unfold signalStrengthsOf.
  rewrite <- list_elem_of_In, list_elem_of_omap.
  split; intros [sat [Hin H]]; exists sat; split;
    solve [assumption | apply list_elem_of_In; assumption].
Qed.

Lemma signalStrengthsOf_nil (satellites : list SatelliteInfo) :
  signalStrengthsOf satellites = []
  <-> forall sat, In sat satellites -> cn0DbHz sat = None.
Proof.
  unfold signalStrengthsOf. induction satellites as [|sat l IH]; cbn.
  - split; [intros _ sat [] | reflexivity].
  - destruct (cn0DbHz sat) as [cn0|] eqn:Hsat; cbn.
    + split; [discriminate|]. intros H.
      specialize (H sat (or_introl eq_refl)). congruence.
    + rewrite IH. split.
      * intros H s [<- | Hin]; [assumption | apply H, Hin].
      * intros H s Hin. apply H. right. assumption.
Qed.

Lemma fold_left_Qplus (values : list Q) (acc : Q) :
  fold_left Qplus values acc == acc + sumQ values.
Proof.
  revert acc. induction values as [|v l IH]; intros acc; cbn [fold_left sumQ fold_right].
  - lra.
  - rewrite IH. unfold sumQ. lra.
Qed.

Lemma Qmax_either (x y : Q) : Qmax x y = x \/ Qmax x y = y.
Proof.
  unfold Qmax, GenericMinMax.gmax. destruct (x ?= y); auto.
Qed.

Lemma Qmin_either (x y : Q) : Qmin x y = x \/ Qmin x y = y.
Proof.
  unfold Qmin, GenericMinMax.gmin. destruct (x ?= y); auto.
Qed.

Lemma Math_max_is_maximum (first : Q) (rest : list Q) :
  In (Math_max first rest) (first :: rest)
  /\ forall v, In v (first :: rest) -> v <= Math_max first rest.
Proof.
  unfold Math_max. revert first.
  induction rest as [|r rest IH]; intros first; cbn [fold_left].
  - split; [left; reflexivity|]. intros v [<- | []]. apply Qle_refl.
  - destruct (IH (Qmax first r)) as [Hin Hub]. split.
    + destruct Hin as [Hhead | Htail]; [|right; right; assumption].
      rewrite <- Hhead. destruct (Qmax_either first r) as [-> | ->];
        [left | right; left]; reflexivity.
    + intros v [<- | [<- | Hv]].
      * eapply Qle_trans; [apply Q.le_max_l | apply Hub; left; reflexivity].
      * eapply Qle_trans; [apply Q.le_max_r | apply Hub; left; reflexivity].
      * apply Hub. right. assumption.
Qed.

Lemma Math_min_is_minimum (first : Q) (rest : list Q) :
  In (Math_min first rest) (first :: rest)
  /\ forall v, In v (first :: rest) -> Math_min first rest <= v.
Proof.
  unfold Math_min. revert first.
  induction rest as [|r rest IH]; intros first; cbn [fold_left].
  - split; [left; reflexivity|]. intros v [<- | []]. apply Qle_refl.
  - destruct (IH (Qmin first r)) as [Hin Hlb]. split.
    + destruct Hin as [Hhead | Htail]; [|right; right; assumption].
      rewrite <- Hhead. destruct (Qmin_either first r) as [-> | ->];
        [left | right; left]; reflexivity.
    + intros v [<- | [<- | Hv]].
      * eapply Qle_trans; [apply Hlb; left; reflexivity | apply Q.le_min_l].
      * eapply Qle_trans; [apply Hlb; left; reflexivity | apply Q.le_min_r].
      * apply Hlb. right. assumption.
Qed.

(** C6. With [signals] the signal strengths of the records that have one:
    when there is none, the average, the strongest and the weakest signal are
    all 0; otherwise the average is their sum divided by their number, the
    strongest is one of them and at least each of them, and the weakest is
    one of them and at most each of them.  The statistics of the empty list
    are all zero with an empty grouping, and three records with the signals
    25.0, 30.0 and none give the average 27.5, the extremes 30.0 and 25.0
    and two records with a good signal. *)
Theorem getSatelliteStatistics_signals :
  (forall satellites : list SatelliteInfo,
      let signals := omap cn0DbHz satellites in
      let stats := getSatelliteStatistics satellites in
      (forall cn0,
          In cn0 signals
          <-> exists sat, In sat satellites /\ cn0DbHz sat = Some cn0)
      /\ ((forall sat, In sat satellites -> cn0DbHz sat = None) ->
          Stats.averageSignalStrength stats = 0
          /\ Stats.strongestSignal stats = 0
          /\ Stats.weakestSignal stats = 0)
      /\ ((exists sat, In sat satellites /\ cn0DbHz sat <> None) ->
          Stats.averageSignalStrength stats
          == sumQ signals / inject_Z (Z.of_nat (length signals))
          /\ In (Stats.strongestSignal stats) signals
          /\ (forall cn0, In cn0 signals -> cn0 <= Stats.strongestSignal stats)
          /\ In (Stats.weakestSignal stats) signals
          /\ (forall cn0, In cn0 signals -> Stats.weakestSignal stats <= cn0)))
  /\ getSatelliteStatistics []
     = {| Stats.total := 0; Stats.usedInFix := 0; Stats.withEphemeris := 0;
          Stats.withAlmanac := 0; Stats.withGoodSignal := 0;
          Stats.byConstellation := ∅;
          Stats.averageSignalStrength := 0; Stats.strongestSignal := 0;
          Stats.weakestSignal := 0 |}
  /\ (forall s1 s2 s3 : SatelliteInfo,
         cn0DbHz s1 = Some 25.0 -> cn0DbHz s2 = Some 30.0 ->
         cn0DbHz s3 = None ->
         let stats := getSatelliteStatistics [s1; s2; s3] in
         Stats.averageSignalStrength stats == 27.5
         /\ Stats.strongestSignal stats = 30.0
         /\ Stats.weakestSignal stats = 25.0
         /\ Stats.withGoodSignal stats = 2%nat).
Proof.
  split; [|split; [reflexivity|]].
  - intros satellites signals stats. subst signals stats.
    fold (signalStrengthsOf satellites).
    split; [apply signalStrengthsOf_In|].
    unfold getSatelliteStatistics.
    destruct (signalStrengthsOf satellites) as [|first rest] eqn:Hsig.
    + split; [intros _; cbn; auto|].
      intros [sat [Hin Hsome]]. contradiction Hsome.
      apply (proj1 (signalStrengthsOf_nil satellites) Hsig sat Hin).
    + split.
      * intros Hnone. apply signalStrengthsOf_nil in Hnone. congruence.
      * intros _.
        cbn [Stats.averageSignalStrength Stats.strongestSignal
             Stats.weakestSignal].
        destruct (Math_max_is_maximum first rest) as [Hmax_in Hmax].
        destruct (Math_min_is_minimum first rest) as [Hmin_in Hmin].
        repeat split; try assumption.
        rewrite fold_left_Qplus, Qplus_0_l. reflexivity.
  - intros s1 s2 s3 H1 H2 H3 stats. subst stats.
    unfold getSatelliteStatistics, signalStrengthsOf, hasSignalAtLeast.
    cbn [omap list_omap List.filter]. rewrite H1, H2, H3.
    cbn [length Stats.averageSignalStrength Stats.strongestSignal
         Stats.weakestSignal Stats.withGoodSignal].
    repeat split; vm_compute; reflexivity.
Qed.

(** ** C10: the statistics against the filters *)

Lemma statistics_usedInFix (satellites : list SatelliteInfo) :
  Stats.usedInFix (getSatelliteStatistics satellites)
  = length (getSatellitesUsedInFix satellites).
Proof.
  unfold getSatelliteStatistics, getSatellitesUsedInFix.
  destruct (signalStrengthsOf satellites); reflexivity.
Qed.

Lemma statistics_withGoodSignal (satellites : list SatelliteInfo) :
  Stats.withGoodSignal (getSatelliteStatistics satellites)
  = length (getSatellitesWithGoodSignal satellites (Some 20))
  /\ Stats.withGoodSignal (getSatelliteStatistics satellites)
     = length (getSatellitesWithGoodSignal satellites None).
Proof.
  unfold getSatelliteStatistics, getSatellitesWithGoodSignal.
  destruct (signalStrengthsOf satellites); split; reflexivity.
Qed.

Lemma statistics_total_and_grouping (satellites : list SatelliteInfo) :
  Stats.total (getSatelliteStatistics satellites) = length satellites
  /\ Stats.byConstellation (getSatelliteStatistics satellites)
     = groupByConstellation satellites.
Proof.
  unfold getSatelliteStatistics.
  destruct (signalStrengthsOf satellites); split; reflexivity.
Qed.

Lemma addCount_comm (j1 j2 : string) (z1 z2 : JsValue) (y : option nat) :
  addCount j1 z1 (addCount j2 z2 y) = addCount j2 z2 (addCount j1 z1 y).
Proof.
  unfold addCount.
  destruct (countOf z1), (countOf z2), y; try reflexivity.
  f_equal. lia.
Qed.

Lemma sumOfCounts_insert_fresh (obj : gmap string JsValue) (key : string)
    (n total : nat) :
  obj !! key = None -> sumOfCounts obj = Some total ->
  sumOfCounts (<[key := JsNumber n]> obj) = Some (n + total)%nat.
Proof.
  intros Hfresh Hsum. unfold sumOfCounts in *.
  rewrite map_fold_insert_L.
  - rewrite Hsum. reflexivity.
  - intros. apply addCount_comm.
  - assumption.
Qed.

Lemma sumOfCounts_increment (obj : gmap string JsValue) (key : string)
    (n total : nat) :
  obj !! key = Some (JsNumber n) -> sumOfCounts obj = Some total ->
  sumOfCounts (<[key := JsNumber (n + 1)]> obj) = Some (total + 1)%nat.
Proof.
  intros Hkey Hsum.
  assert (Hrest : exists rest, sumOfCounts (delete key obj) = Some rest
                               /\ total = (n + rest)%nat).
  { unfold sumOfCounts in *.
    rewrite (map_fold_delete_L addCount (Some 0%nat) key (JsNumber n) obj)
      in Hsum; [|intros; apply addCount_comm | assumption].
    unfold addCount at 1 in Hsum. cbn [countOf] in Hsum.
    destruct (map_fold addCount (Some 0%nat) (delete key obj)) as [rest|];
      [|discriminate].
    exists rest. split; [reflexivity | congruence]. }
  destruct Hrest as [rest [Hrest ->]].
  rewrite <- insert_delete_eq.
  rewrite (sumOfCounts_insert_fresh _ key (n + 1) rest).
  - f_equal. lia.
  - apply lookup_delete_eq.
  - assumption.
Qed.

(** One step of the grouping, for a name that does not collide with a member
    of [Object.prototype], on an object that holds counts only. *)
Lemma grouping_step (obj : gmap string JsValue) (name : string) (total : nat) :
  name ∉ Object_prototype_keys ->
  (forall key v, obj !! key = Some v -> exists n, v = JsNumber n) ->
  sumOfCounts obj = Some total ->
  let obj' :=
    setProperty obj name (jsPlusOne (jsOr (getProperty obj name) (JsNumber 0)))
  in
  (forall key v, obj' !! key = Some v -> exists n, v = JsNumber n)
  /\ sumOfCounts obj' = Some (total + 1)%nat.
Proof.
  intros Hname Hcounts Hsum obj'. subst obj'.
  unfold setProperty, getProperty.
  rewrite bool_decide_eq_false_2.
  2:{ intros ->. apply Hname. unfold Object_prototype_keys.
      apply list_elem_of_In. cbn. tauto. }
  rewrite (bool_decide_eq_false_2 _ Hname).
  destruct (obj !! name) as [v|] eqn:Hlookup.
  - destruct (Hcounts name v Hlookup) as [n ->].
    assert (Hnext : jsPlusOne (jsOr (Some (JsNumber n)) (JsNumber 0))
                    = JsNumber (n + 1)).
    { destruct n; reflexivity. }
    rewrite Hnext. split.
    + intros key v. rewrite lookup_insert. case_decide.
      * intros [= <-]. eauto.
      * apply Hcounts.
    + apply sumOfCounts_increment; assumption.
  - cbn [jsOr jsPlusOne]. split.
    + intros key v. rewrite lookup_insert. case_decide.
      * intros [= <-]. eauto.
      * apply Hcounts.
    + rewrite (sumOfCounts_insert_fresh obj name _ total Hlookup Hsum).
      f_equal. lia.
Qed.

(** For names that do not collide with a member of [Object.prototype], the
    grouping holds counts only and they add up to the number of records. *)
Lemma byConstellation_sums_to_total (satellites : list SatelliteInfo) :
  (forall sat, In sat satellites ->
               constellationName sat ∉ Object_prototype_keys) ->
  sumOfCounts (Stats.byConstellation (getSatelliteStatistics satellites))
  = Some (Stats.total (getSatelliteStatistics satellites)).
Proof.
  intros Hnames.
  destruct (statistics_total_and_grouping satellites) as [-> ->].
  unfold groupByConstellation.
  assert (Hgen : forall (obj : gmap string JsValue) (total : nat),
             (forall key v, obj !! key = Some v -> exists n, v = JsNumber n) ->
             sumOfCounts obj = Some total ->
             sumOfCounts
               (fold_left
                  (fun obj sat =>
                     setProperty obj (constellationName sat)
                       (jsPlusOne
                          (jsOr (getProperty obj (constellationName sat))
                             (JsNumber 0))))
                  satellites obj)
             = Some (total + length satellites)%nat).
  { induction satellites as [|sat l IH]; intros obj total Hcounts Hsum.
    - cbn. rewrite Hsum. f_equal. lia.
    - cbn [fold_left length].
      destruct (grouping_step obj (constellationName sat) total) as [Hc Hs];
        [apply Hnames; left; reflexivity | assumption | assumption |].
      rewrite (IH (fun s Hin => Hnames s (or_intror Hin)) _ _ Hc Hs).
      f_equal. lia. }
  apply (Hgen ∅ 0%nat).
  - intros key v. rewrite lookup_empty. discriminate.
  - reflexivity.
Qed.

(** The names that the native module gives to constellations do not collide. *)
Lemma native_names_do_not_collide (constellation : Z) :
  Native.getConstellationName constellation ∉ Object_prototype_keys.
Proof.
  unfold Native.getConstellationName.
  repeat match goal with
         | |- context [if ?c then _ else _] => destruct c
         end;
    intros Hin; apply list_elem_of_In in Hin; cbn in Hin;
    repeat (destruct Hin as [Heq | Hin]; [discriminate Heq|]); exact Hin.
Qed.

(** So the grouping adds up for the records that the native module hands
    over. *)
Lemma native_satellites_sum_to_total (data : list Native.SatelliteData) :
  (forall d, In d data ->
             Native.constellationName d
             = Native.getConstellationName (Native.constellationType d)) ->
  sumOfCounts
    (Stats.byConstellation
       (getSatelliteStatistics (map Native.toWritableMap data)))
  = Some (Stats.total (getSatelliteStatistics (map Native.toWritableMap data))).
Proof.
  intros Hnames. apply byConstellation_sums_to_total.
  intros sat Hin. apply in_map_iff in Hin as [d [<- Hd]].
  cbn [Native.toWritableMap constellationName].
  rewrite (Hnames d Hd). apply native_names_do_not_collide.
Qed.

(** C10. The used-in-fix and good-signal statistics are the lengths of the
    corresponding filters for every list.  The grouping by constellation is
    kept in a plain object: for a record named "constructor" the lookup finds
    the member inherited from [Object.prototype], so the stored value is a
    string, not the count 1, and the values do not add up to the total. *)
Theorem statistics_grouping_of_inherited_name :
  (forall satellites : list SatelliteInfo,
      Stats.usedInFix (getSatelliteStatistics satellites)
      = length (getSatellitesUsedInFix satellites)
      /\ Stats.withGoodSignal (getSatelliteStatistics satellites)
         = length (getSatellitesWithGoodSignal satellites (Some 20)))
  /\ Stats.total (getSatelliteStatistics [satelliteNamed "constructor" None])
     = 1%nat
  /\ Stats.byConstellation
       (getSatelliteStatistics [satelliteNamed "constructor" None])
     = {[ "constructor" := JsText "constructor" "1" ]}
  /\ sumOfCounts
       (Stats.byConstellation
          (getSatelliteStatistics [satelliteNamed "constructor" None]))
     = None.
Proof.
  split; [|repeat split; vm_compute; reflexivity].
  intros satellites. split.
  - apply statistics_usedInFix.
  - apply statistics_withGoodSignal.
Qed.

(** ** C8: permission *)

(** C8. Without the location permission, [getGNSSStatus] and
    [startListening] reject their promise with the code "PERMISSION_DENIED",
    resolve nothing and leave the module as it was; and that code is given
    for no other reason, so a caller can tell a denial from any other
    failure and from success. *)
Theorem permission_denied_is_rejected (p : Native.Platform) (st : Native.State) :
  (Native.hasLocationPermission p = false ->
   Native.getGNSSStatus p st
   = Rejected "PERMISSION_DENIED" "Location permission is required"
   /\ Native.startListening p st
      = (Rejected "PERMISSION_DENIED" "Location permission is required", st)
   /\ (forall result, Native.getGNSSStatus p st <> Resolved result)
   /\ (forall st', Native.startListening p st <> (Resolved tt, st')))
  /\ (forall message,
         Native.getGNSSStatus p st = Rejected "PERMISSION_DENIED" message ->
         Native.hasLocationPermission p = false)
  /\ (forall message st',
         Native.startListening p st
         = (Rejected "PERMISSION_DENIED" message, st') ->
         Native.hasLocationPermission p = false).
Proof.
  unfold Native.getGNSSStatus, Native.startListening,
    Native.startListeningFailed.
  destruct (Native.hasLocationPermission p); cbn [negb].
  - split; [discriminate|]. split.
    + intros message. destruct (Native.isProviderEnabled p); discriminate.
    + intros message st'.
      destruct (Native.gnssStatusCallback st);
        destruct (Native.registerGnssStatusCallback p);
        cbn; try discriminate;
        destruct (_ && _); try discriminate;
        destruct (Native.registerGnssMeasurementsCallback p); discriminate.
  - split; [|split; reflexivity].
    intros _. repeat split; intros; discriminate.
Qed.

(** A platform that refuses the permission, and a module that has not
    listened yet. *)
Lemma permission_denied_is_rejected_witness :
  Native.getGNSSStatus
    {| Native.checkSelfPermission_granted := false;
       Native.SDK_INT := 30;
       Native.isProviderEnabled := inr true;
       Native.registerGnssStatusCallback := inr tt;
       Native.registerGnssMeasurementsCallback := inr tt |}
    {| Native.gnssStatusCallback := false;
       Native.gnssMeasurementsCallback := false;
       Native.currentSatelliteCount := 0;
       Native.satellitesUsedInFix := 0;
       Native.averageSignalToNoiseRatio := 0;
       Native.supportedConstellations := [];
       Native.detectedFrequencies := [];
       Native.satelliteDataList := [] |}
  = Rejected "PERMISSION_DENIED" "Location permission is required".
Proof.
  apply (proj1 (permission_denied_is_rejected
           {| Native.checkSelfPermission_granted := false;
              Native.SDK_INT := 30;
              Native.isProviderEnabled := inr true;
              Native.registerGnssStatusCallback := inr tt;
              Native.registerGnssMeasurementsCallback := inr tt |}
           {| Native.gnssStatusCallback := false;
              Native.gnssMeasurementsCallback := false;
              Native.currentSatelliteCount := 0;
              Native.satellitesUsedInFix := 0;
              Native.averageSignalToNoiseRatio := 0;
              Native.supportedConstellations := [];
              Native.detectedFrequencies := [];
              Native.satelliteDataList := [] |})).
  reflexivity.
Defined.

(** With the permission, an enabled provider and registrations that succeed,
    both promises are resolved. *)
Lemma permission_granted_resolves (p : Native.Platform) (st : Native.State)
    (enabled : bool) :
  Native.hasLocationPermission p = true ->
  Native.isProviderEnabled p = inr enabled ->
  Native.registerGnssStatusCallback p = inr tt ->
  Native.registerGnssMeasurementsCallback p = inr tt ->
  (exists result, Native.getGNSSStatus p st = Resolved result)
  /\ (exists st', Native.startListening p st = (Resolved tt, st')).
Proof.
  intros Hperm Henabled Hstatus Hmeasurements.
  unfold Native.getGNSSStatus, Native.startListening.
  rewrite Hperm, Henabled, Hstatus, Hmeasurements. cbn [negb]. split.
  - eexists. reflexivity.
  - destruct (Native.gnssStatusCallback st); cbn;
      destruct (_ && _); eexists; reflexivity.
Qed.

(** * Further properties *)

(** ** Band information for a list of frequencies *)

(** X1. [getFrequencyBandInfo] keeps the length, the order and the
    duplicates of its input: the [frequency] fields of the result are the
    input list, and the entry at each index classifies the frequency at
    that index. *)
Theorem getFrequencyBandInfo_keeps_frequencies (carrierFrequencies : list Q) :
  map frequency (getFrequencyBandInfo carrierFrequencies) = carrierFrequencies
  /\ length (getFrequencyBandInfo carrierFrequencies)
     = length carrierFrequencies
  /\ forall (i : nat) (freq : Q),
       nth_error carrierFrequencies i = Some freq ->
       nth_error (getFrequencyBandInfo carrierFrequencies) i
       = Some (identifyFrequencyBand freq None)
       /\ frequency (identifyFrequencyBand freq None) = freq.
Proof.
  unfold getFrequencyBandInfo. split; [|split].
  - rewrite map_map. rewrite <- (map_id carrierFrequencies) at 2.
    apply map_ext. intros freq. rewrite identifyFrequencyBand_scan.
    unfold classifyBy. destruct (find _ _); reflexivity.
  - apply length_map.
  - intros i freq Hi. split.
    + rewrite nth_error_map, Hi. reflexivity.
    + rewrite identifyFrequencyBand_scan. unfold classifyBy.
      destruct (find _ _); reflexivity.
Qed.

(** X2. [isDualFrequencySupported] is the disjunction of the dual-frequency
    flags that [getFrequencyBandInfo] reports for the same list, and it
    distributes over concatenation. *)
Theorem isDualFrequencySupported_of_band_info :
  (forall carrierFrequencies : list Q,
      isDualFrequencySupported carrierFrequencies
      = existsb isDualFrequency (getFrequencyBandInfo carrierFrequencies))
  /\ (forall first second : list Q,
         isDualFrequencySupported (first ++ second)%list
         = isDualFrequencySupported first || isDualFrequencySupported second).
Proof.
  split.
  - intros l. unfold isDualFrequencySupported, getFrequencyBandInfo.
    induction l as [|freq l IH]; [reflexivity|].
    cbn [existsb map]. rewrite IH. reflexivity.
  - intros first second. unfold isDualFrequencySupported.
    apply existsb_app.
Qed.

(** ** The dual-frequency flag *)

(** X3. For every frequency and tolerance, the dual-frequency flag of the
    result is set exactly when the frequency is classified and its band is
    not one of the primary bands L1, E1 and B1. *)
Theorem isDualFrequency_iff_secondary_band (freq : Q) (tolerance : option Q) :
  isDualFrequency (identifyFrequencyBand freq tolerance) = true
  <-> constellation (identifyFrequencyBand freq tolerance) <> "UNKNOWN"
      /\ band (identifyFrequencyBand freq tolerance) <> "L1"
      /\ band (identifyFrequencyBand freq tolerance) <> "E1"
      /\ band (identifyFrequencyBand freq tolerance) <> "B1".
Proof.
  rewrite identifyFrequencyBand_scan. unfold classifyBy.
  destruct (find _ declaredBands) as [d|] eqn:Hfind.
  - apply matches_some in Hfind as [Hin _].
    unfold declaredBands in Hin; cbn [In] in Hin.
    repeat (destruct Hin as [<- | Hin];
            [cbn; split;
             [intros H; first [discriminate H | repeat split; discriminate]
             |intros (H0 & H1 & H2 & H3);
              first [reflexivity
                    | contradiction H1; reflexivity
                    | contradiction H2; reflexivity
                    | contradiction H3; reflexivity]] |]).
    destruct Hin.
  - cbn. split; [discriminate|]. intros [H _]. contradiction H. reflexivity.
Qed.

Ltac scan_branches Hm :=
  repeat match goal with
         | |- context [if ?c then _ else _] =>
             lazymatch c with
             | true => fail
             | false => fail
             | _ =>
                 let E := fresh "E" in
                 destruct c eqn:E; cbv iota;
                 [ first [reflexivity | exfalso; bounds_of E; lra]
                 | try discriminate Hm ]
             end
         end.

(** X4. Below a tolerance of 146.289 MHz the dual-frequency flag does not
    depend on the order of the branches: whichever declared band holds the
    frequency, the flag of the result is the flag of that band.  At 146.289
    MHz the windows of BeiDou B1 and BeiDou B3 meet and the order decides. *)
Theorem dual_flag_independent_of_branch_order
    (freq : Q) (tolerance : option Q) (d : BandDescriptor) :
  default 1.0 tolerance < 146.289 ->
  In d declaredBands ->
  matches freq (default 1.0 tolerance) d = true ->
  isDualFrequency (identifyFrequencyBand freq tolerance) = descriptorDual d.
Proof.
  unfold identifyFrequencyBand.
  generalize (default 1.0 tolerance); intros tol Htol Hin.
  unfold matches. unfold declaredBands in Hin; cbn [In] in Hin.
  repeat (destruct Hin as [<- | Hin];
          [cbn [window descriptorDual inWindow]; unfold_frequencies;
           intros Hm; pose proof Hm as Hb; bounds_of Hb;
           scan_branches Hm |]).
  destruct Hin.
Qed.

Lemma dual_flag_independent_of_branch_order_witness :
  isDualFrequency (identifyFrequencyBand 1176.0 (Some 20))
  = descriptorDual
      {| window := Nominal CarrierFrequencies.NAVIC_L5;
         descriptorConstellation := "NAVIC"; descriptorBand := "L5";
         descriptorDual := true |}.
Proof.
  apply (dual_flag_independent_of_branch_order 1176.0 (Some 20)).
  - vm_compute. reflexivity.
  - unfold declaredBands. cbn [In].
    repeat (first [left; reflexivity | right]).
  - vm_compute. reflexivity.
Defined.

(** The bound is the least one: at 146.289 MHz the frequency 1414.809 MHz is
    held by BeiDou B3, a dual-frequency band, and classified as BeiDou B1. *)
Lemma dual_flag_depends_on_order_at_the_bound :
  matches 1414.809 146.289
    {| window := Nominal CarrierFrequencies.BEIDOU_B3;
       descriptorConstellation := "BEIDOU"; descriptorBand := "B3";
       descriptorDual := true |} = true
  /\ identifyFrequencyBand 1414.809 (Some 146.289)
     = {| frequency := 1414.809; constellation := "BEIDOU"; band := "B1";
          isDualFrequency := false |}.
Proof. split; vm_compute; reflexivity. Qed.

(** ** The helper's check against the native check *)

Lemma coarse_check_rejects (freq : Q) :
  1500 <= freq -> freq <= 2400 ->
  Native.indicatesDualFrequency freq = false.
Proof.
  intros Hlo Hhi. unfold Native.indicatesDualFrequency.
  unfold Native.FREQ_TOLERANCE, Native.GLONASS_L2_MIN, Native.GLONASS_L2_MAX.
  cbn [map fst Native.DUAL_FREQUENCY_BANDS existsb].
  repeat (apply orb_false_iff; split); try reflexivity;
    apply not_true_is_false; intros E;
    first [apply Qle_bool_iff, Qabs_Qle_condition in E
          | apply between_iff in E];
    destruct E; lra.
Qed.

(** X5. On a frequency that the classifier recognises with its default
    tolerance, the dual-frequency flag of the classifier and the test that
    the native module applies to a detected frequency give the same
    answer. *)
Theorem checks_agree_on_classified_frequencies (freq : Q) :
  constellation (identifyFrequencyBand freq None) <> "UNKNOWN" ->
  isDualFrequency (identifyFrequencyBand freq None)
  = Native.indicatesDualFrequency freq.
Proof.
  intros Hknown.
  destruct (isDualFrequency (identifyFrequencyBand freq None)) eqn:Hdual.
  - symmetry. apply fine_check_implies_coarse_check, Hdual.
  - symmetry. revert Hknown Hdual.
    rewrite identifyFrequencyBand_scan. unfold classifyBy. cbn [default].
    destruct (find _ declaredBands) as [d|] eqn:Hfind;
      [|intros H; contradiction H; reflexivity].
    apply matches_some in Hfind as [Hin Hm]. intros _.
    cbn [bandInfoOf isDualFrequency].
    revert Hm. unfold matches. unfold declaredBands in Hin; cbn [In] in Hin.
    repeat (destruct Hin as [<- | Hin];
            [cbn [window descriptorDual inWindow]; unfold_frequencies;
             intros Hm Hdual; try discriminate Hdual;
             bounds_of Hm; apply coarse_check_rejects; lra |]).
    destruct Hin.
Qed.

Lemma checks_agree_on_classified_frequencies_witness :
  isDualFrequency (identifyFrequencyBand 1575.9 None)
  = Native.indicatesDualFrequency 1575.9.
Proof.
  apply (checks_agree_on_classified_frequencies 1575.9).
  vm_compute. discriminate.
Defined.

(** X6. Whenever [isDualFrequencySupported], applied to the carrier
    frequencies of a resolved status, reports dual-frequency support, the
    [isDualFrequencySupported] field of that status is set. *)
Theorem helper_support_implies_status_support
    (p : Native.Platform) (st : Native.State) (result : Native.StatusMap) :
  Native.getGNSSStatus p st = Resolved result ->
  isDualFrequencySupported (Native.carrierFrequencies result) = true ->
  Native.isDualFrequencySupported result = true.
Proof.
  unfold Native.getGNSSStatus.
  destruct (negb (Native.hasLocationPermission p)); [discriminate|].
  destruct (Native.isProviderEnabled p) as [message | enabled];
    [discriminate|].
  intros [= <-].
  cbn [Native.isDualFrequencySupported Native.carrierFrequencies].
  unfold isDualFrequencySupported.
  rewrite !existsb_exists. intros [freq [Hin Hdual]].
  exists freq. split; [assumption|].
  apply fine_check_implies_coarse_check, Hdual.
Qed.

Lemma helper_support_implies_status_support_witness :
  exists result,
    Native.getGNSSStatus (grantingPlatform 30) (sampleState [] [1176.45])
    = Resolved result
    /\ Native.isDualFrequencySupported result = true.
Proof.
  eexists. split; [reflexivity|].
  eapply (helper_support_implies_status_support
            (grantingPlatform 30) (sampleState [] [1176.45])).
  - reflexivity.
  - vm_compute. reflexivity.
Defined.

(** ** Signal statistics *)



(** X8. Some satellite has a good signal (at least 20 dB-Hz) exactly when
    the strongest signal is at least 20. *)
Theorem good_signal_iff_strongest_at_least_20 (satellites : list SatelliteInfo) :
  (0 < Stats.withGoodSignal (getSatelliteStatistics satellites))%nat
  <-> 20 <= Stats.strongestSignal (getSatelliteStatistics satellites).
Proof.
  assert (Hgood : (0 < length (List.filter (hasSignalAtLeast 20) satellites))%nat
                  <-> exists cn0, In cn0 (signalStrengthsOf satellites)
                                  /\ 20 <= cn0).
  { split.
    - intros Hlen.
      destruct (List.filter (hasSignalAtLeast 20) satellites) as [|sat l]
        eqn:Hfilter; [cbn in Hlen; lia|].
      assert (Hin : In sat (List.filter (hasSignalAtLeast 20) satellites))
        by (rewrite Hfilter; left; reflexivity).
      apply filter_In in Hin as [Hin Hsat].
      apply hasSignalAtLeast_iff in Hsat as [cn0 [Hcn0 Hle]].
      exists cn0. split; [|exact Hle].
      apply signalStrengthsOf_In. exists sat. split; assumption.
    - intros [cn0 [Hin Hle]].
      apply signalStrengthsOf_In in Hin as [sat [Hin Hcn0]].
      assert (Hsat : In sat (List.filter (hasSignalAtLeast 20) satellites)).
      { apply filter_In. split; [exact Hin|].
        apply hasSignalAtLeast_iff. exists cn0. split; assumption. }
      destruct (List.filter (hasSignalAtLeast 20) satellites);
        [destruct Hsat | cbn; lia]. }
  unfold getSatelliteStatistics.
  destruct (signalStrengthsOf satellites) as [|first rest] eqn:Hsig;
    cbn [Stats.withGoodSignal Stats.strongestSignal]; rewrite Hgood.
  - split.
    + intros [cn0 [[] _]].
    + intros H. exfalso. revert H. unfold Qle. cbn. lia.
  - destruct (Math_max_is_maximum first rest) as [Hin Hmax]. split.
    + intros [cn0 [Hcn0 Hle]]. eapply Qle_trans; [exact Hle|].
      apply Hmax, Hcn0.
    + intros Hle. exists (Math_max first rest). split; assumption.
Qed.

(** ** Grouping by constellation *)

Lemma countValue_lookup_step (obj : gmap string JsValue) (name key : string)
    (n : nat) :
  name ∉ Object_prototype_keys ->
  obj !! name = countValue n ->
  setProperty obj key (jsPlusOne (jsOr (getProperty obj key) (JsNumber 0)))
  !! name
  = countValue (if String.eqb key name then S n else n).
Proof.
  intros Hname Hlookup. unfold setProperty.
  destruct (String.eqb_spec key name) as [-> | Hne].
  - rewrite bool_decide_eq_false_2.
    2:{ intros ->. apply Hname. apply list_elem_of_In. cbn. tauto. }
    rewrite lookup_insert_eq. unfold getProperty. rewrite Hlookup.
    destruct n as [|n]; cbn [countValue].
    + rewrite (bool_decide_eq_false_2 _ Hname). reflexivity.
    + cbn [jsOr jsPlusOne]. do 2 f_equal. lia.
  - case_bool_decide; [exact Hlookup|].
    rewrite lookup_insert_ne by exact Hne. exact Hlookup.
Qed.

(** X9. Under a name that is not a member of [Object.prototype], the
    grouping holds the number of records with that name, and no property at
    all when there is none; the other names of the list do not matter. *)
Theorem byConstellation_lookup_counts
    (satellites : list SatelliteInfo) (name : string) :
  name ∉ Object_prototype_keys ->
  Stats.byConstellation (getSatelliteStatistics satellites) !! name
  = countValue (countNamed name satellites).
Proof.
  intros Hname.
  destruct (statistics_total_and_grouping satellites) as [_ ->].
  unfold groupByConstellation, countNamed.
  assert (Hgen : forall (obj : gmap string JsValue) (n : nat),
             obj !! name = countValue n ->
             fold_left
               (fun obj sat =>
                  setProperty obj (constellationName sat)
                    (jsPlusOne
                       (jsOr (getProperty obj (constellationName sat))
                          (JsNumber 0))))
               satellites obj !! name
             = countValue
                 (n + length
                        (List.filter
                           (fun sat => String.eqb (constellationName sat) name)
                           satellites))).
  { induction satellites as [|sat l IH]; intros obj n Hobj.
    - cbn. rewrite Nat.add_0_r. exact Hobj.
    - cbn [fold_left List.filter].
      rewrite (IH _ _ (countValue_lookup_step obj name
                         (constellationName sat) n Hname Hobj)).
      destruct (String.eqb (constellationName sat) name);
        cbn [length]; f_equal; lia. }
  apply (Hgen ∅ 0%nat). apply lookup_empty.
Qed.

Lemma byConstellation_lookup_counts_witness :
  Stats.byConstellation
    (getSatelliteStatistics
       [satelliteNamed "GPS" None; satelliteNamed "constructor" None;
        satelliteNamed "GPS" None]) !! "GPS"
  = Some (JsNumber 2)
  /\ Stats.byConstellation
       (getSatelliteStatistics
          [satelliteNamed "GPS" None; satelliteNamed "constructor" None;
           satelliteNamed "GPS" None]) !! "IRNSS"
     = None.
Proof.
  split.
  - apply (byConstellation_lookup_counts
             [satelliteNamed "GPS" None; satelliteNamed "constructor" None;
              satelliteNamed "GPS" None] "GPS").
    intros Hin. apply list_elem_of_In in Hin. cbn in Hin.
    repeat (destruct Hin as [Heq | Hin]; [discriminate Heq|]). exact Hin.
  - vm_compute. reflexivity.
Defined.

(** ** NavIC *)

Lemma getConstellationName_IRNSS (constellation : Z) :
  Native.getConstellationName constellation = "IRNSS"
  <-> constellation = Native.CONSTELLATION_IRNSS.
Proof.
  unfold Native.getConstellationName.
  repeat match goal with
         | |- context [if Z.eqb ?a ?b then _ else _] =>
             destruct (Z.eqb_spec a b) as [-> | ?]
         end;
    split; intros H; first [discriminate H | reflexivity | congruence].
Qed.

(** X10. In every resolved status the [isNavICSupported] field equals
    [isNavICSupported] applied to the [supportedConstellations] of that
    status. *)
Theorem status_NavIC_flag_matches_helper
    (p : Native.Platform) (st : Native.State) (result : Native.StatusMap) :
  Native.getGNSSStatus p st = Resolved result ->
  Native.isNavICSupported result
  = isNavICSupported (Native.result_supportedConstellations result).
Proof.
  unfold Native.getGNSSStatus.
  destruct (negb (Native.hasLocationPermission p)); [discriminate|].
  destruct (Native.isProviderEnabled p) as [message | enabled];
    [discriminate|].
  intros [= <-].
  cbn [Native.isNavICSupported Native.result_supportedConstellations].
  unfold isNavICSupported.
  induction (Native.supportedConstellations st) as [|c l IH]; [reflexivity|].
  cbn [existsb map]. rewrite IH. f_equal.
  destruct (Z.eqb_spec Native.CONSTELLATION_IRNSS c) as [<- | Hne].
  - reflexivity.
  - symmetry. apply String.eqb_neq. intros Heq. apply Hne. symmetry.
    apply getConstellationName_IRNSS. symmetry. exact Heq.
Qed.

Lemma status_NavIC_flag_matches_helper_witness :
  exists result,
    Native.getGNSSStatus (grantingPlatform 30) (sampleState [1; 7]%Z [])
    = Resolved result
    /\ Native.isNavICSupported result = true
    /\ isNavICSupported (Native.result_supportedConstellations result) = true.
Proof.
  eexists. split; [reflexivity|]. split; [reflexivity|].
  erewrite <- (status_NavIC_flag_matches_helper
                 (grantingPlatform 30) (sampleState [1; 7]%Z []));
    reflexivity.
Defined.

(** ** The satellite callback *)

Lemma satellite_loop (p : Native.Platform) (cache : Native.ReflectionCache)
    (status : list Native.GnssStatus.satellite)
    (st0 : Native.State) (signals0 : list Q) :
  let looped :=
    fold_left (Native.satelliteLoopStep p cache) status (st0, signals0) in
  Native.satelliteDataList (fst looped)
  = (Native.satelliteDataList st0
     ++ map (Native.satelliteDataOf p cache) status)%list
  /\ Native.satellitesUsedInFix (fst looped)
     = (Native.satellitesUsedInFix st0
        + Z.of_nat (length (List.filter Native.GnssStatus.usedInFix status)))%Z
  /\ Native.supportedConstellations (fst looped)
     = fold_left (fun s c => Native.hashSetAddInt c s)
         (map Native.GnssStatus.getConstellationType status)
         (Native.supportedConstellations st0)
  /\ snd looped
     = (signals0
        ++ omap Native.cn0DbHz (map (Native.satelliteDataOf p cache) status))%list
  /\ Native.gnssStatusCallback (fst looped) = Native.gnssStatusCallback st0
  /\ Native.gnssMeasurementsCallback (fst looped)
     = Native.gnssMeasurementsCallback st0
  /\ Native.currentSatelliteCount (fst looped)
     = Native.currentSatelliteCount st0
  /\ Native.detectedFrequencies (fst looped) = Native.detectedFrequencies st0.
Proof.
  revert st0 signals0.
  induction status as [|s l IH]; intros st0 signals0; cbn [fold_left].
  - cbn. rewrite !app_nil_r, Z.add_0_r. repeat split.
  - specialize (IH (fst (Native.satelliteLoopStep p cache (st0, signals0) s))
                  (snd (Native.satelliteLoopStep p cache (st0, signals0) s))).
    rewrite <- surjective_pairing in IH. cbv zeta in IH.
    destruct IH as (Hdata & Hused & Hsets & Hsignals & H1 & H2 & H3 & H4).
    cbv zeta. rewrite Hdata, Hused, Hsets, Hsignals, H1, H2, H3, H4.
    unfold Native.satelliteLoopStep; cbn [fst snd Native.satelliteDataList
      Native.satellitesUsedInFix Native.supportedConstellations
      Native.gnssStatusCallback Native.gnssMeasurementsCallback
      Native.currentSatelliteCount Native.detectedFrequencies
      map List.filter fold_left].
    repeat split.
    + rewrite <- app_assoc. reflexivity.
    + destruct (Native.GnssStatus.usedInFix s); cbn [length]; lia.
    + cbn [omap list_omap].
      destruct (Native.cn0DbHz (Native.satelliteDataOf p cache s));
        [rewrite <- app_assoc|]; reflexivity.
Qed.

Lemma hashSetAddInt_fold (codes : list Z) (set : list Z) :
  NoDup set ->
  NoDup (fold_left (fun s c => Native.hashSetAddInt c s) codes set)
  /\ forall c, In c (fold_left (fun s c => Native.hashSetAddInt c s) codes set)
               <-> In c set \/ In c codes.
Proof.
  revert set. induction codes as [|x l IH]; intros set Hset; cbn [fold_left].
  - split; [assumption|]. intros c. cbn. tauto.
  - assert (Hadd : NoDup (Native.hashSetAddInt x set)
                   /\ forall c, In c (Native.hashSetAddInt x set)
                                <-> In c set \/ c = x).
    { unfold Native.hashSetAddInt.
      destruct (existsb (Z.eqb x) set) eqn:Hex.
      - split; [assumption|]. intros c. split; [tauto|].
        intros [H | ->]; [assumption|].
        apply existsb_exists in Hex as [y [Hy Heq]].
        apply Z.eqb_eq in Heq. subst y. assumption.
      - split.
        + apply NoDup_app. split; [assumption|]. split.
          * intros y Hy Hx. apply list_elem_of_In in Hy, Hx.
            destruct Hx as [<- | []].
            assert (existsb (Z.eqb x) set = true) as Hcontra
              by (apply existsb_exists; exists x; split;
                  [assumption | apply Z.eqb_refl]).
            congruence.
          * apply NoDup_singleton.
        + intros c. rewrite in_app_iff. cbn. intuition congruence. }
    destruct Hadd as [Hnodup Hin].
    destruct (IH _ Hnodup) as [IHnodup IHin]. split; [assumption|].
    intros c. rewrite IHin, Hin. cbn. intuition congruence.
Qed.

Lemma updateSatelliteStatus_fields (p : Native.Platform)
    (cache : Native.ReflectionCache)
    (status : list Native.GnssStatus.satellite) (st : Native.State) :
  let st' := fst (Native.updateSatelliteStatus p cache status st) in
  let data := map (Native.satelliteDataOf p cache) status in
  Native.satelliteDataList st' = data
  /\ Native.currentSatelliteCount st' = Z.of_nat (length status)
  /\ Native.satellitesUsedInFix st'
     = Z.of_nat (length (List.filter Native.GnssStatus.usedInFix status))
  /\ Native.supportedConstellations st'
     = fold_left (fun s c => Native.hashSetAddInt c s)
         (map Native.GnssStatus.getConstellationType status) []
  /\ Native.averageSignalToNoiseRatio st'
     = Native.averageOrZero (omap Native.cn0DbHz data)
  /\ Native.detectedFrequencies st' = Native.detectedFrequencies st
  /\ Native.gnssStatusCallback st' = Native.gnssStatusCallback st
  /\ Native.gnssMeasurementsCallback st' = Native.gnssMeasurementsCallback st.
Proof.
  unfold Native.updateSatelliteStatus. cbv zeta.
  match goal with
  | |- context [fold_left _ status (?s0, [])] =>
      destruct (satellite_loop p cache status s0 [])
        as (Hdata & Hused & Hsets & Hsignals & H1 & H2 & H3 & H4)
  end.
  cbn [fst Native.satelliteDataList Native.currentSatelliteCount
       Native.satellitesUsedInFix Native.supportedConstellations
       Native.averageSignalToNoiseRatio Native.detectedFrequencies
       Native.gnssStatusCallback Native.gnssMeasurementsCallback].
  rewrite Hdata, Hused, Hsets, Hsignals, H1, H2, H3, H4.
  cbn. repeat split.
Qed.

Lemma updateSatelliteStatus_event (p : Native.Platform)
    (cache : Native.ReflectionCache)
    (status : list Native.GnssStatus.satellite) (st : Native.State) :
  let st' := fst (Native.updateSatelliteStatus p cache status st) in
  snd (Native.updateSatelliteStatus p cache status st)
  = {| Native.SatelliteStatusEvent.satellitesVisible :=
         Native.currentSatelliteCount st';
       Native.SatelliteStatusEvent.satellitesUsedInFix :=
         Native.satellitesUsedInFix st';
       Native.SatelliteStatusEvent.averageSignalToNoiseRatio :=
         Native.averageSignalToNoiseRatio st';
       Native.SatelliteStatusEvent.supportedConstellations :=
         map Native.getConstellationName (Native.supportedConstellations st');
       Native.SatelliteStatusEvent.isNavICSupported :=
         existsb (Z.eqb Native.CONSTELLATION_IRNSS)
           (Native.supportedConstellations st');
       Native.SatelliteStatusEvent.satellites :=
         map Native.toWritableMap (Native.satelliteDataList st') |}.
Proof. reflexivity. Qed.

Lemma filter_map_length {A B : Type} (keep : B -> bool) (f : A -> B)
    (l : list A) :
  length (List.filter keep (map f l))
  = length (List.filter (fun x => keep (f x)) l).
Proof.
  induction l as [|x l IH]; [reflexivity|].
  cbn [map List.filter]. destruct (keep (f x)); cbn [length]; congruence.
Qed.

Lemma signalStrengths_of_native_data (data : list Native.SatelliteData) :
  signalStrengthsOf (map Native.toWritableMap data)
  = omap Native.cn0DbHz data.
Proof.
  unfold signalStrengthsOf. induction data as [|d l IH]; [reflexivity|].
  cbn [map omap list_omap]. cbn [Native.toWritableMap cn0DbHz].
  destruct (Native.cn0DbHz d); [f_equal|]; exact IH.
Qed.

Lemma existsb_IRNSS_iff (codes : list Z) :
  existsb (Z.eqb Native.CONSTELLATION_IRNSS) codes = true
  <-> In Native.CONSTELLATION_IRNSS codes.
Proof.
  rewrite existsb_exists. split.
  - intros [c [Hin Heq]]. apply Z.eqb_eq in Heq. subst c. exact Hin.
  - intros Hin. eexists. split; [exact Hin | apply Z.eqb_refl].
Qed.

(** X11. The payload of [onSatelliteStatusChanged] agrees with the helpers
    applied to the satellites it carries: the visible count is their number,
    the used-in-fix count and the average signal are the ones that
    [getSatelliteStatistics] computes from them, and the NavIC flag is set
    exactly when [getSatellitesByConstellation] finds an IRNSS satellite. *)
Theorem satellite_event_agrees_with_helpers (p : Native.Platform)
    (cache : Native.ReflectionCache)
    (status : list Native.GnssStatus.satellite) (st : Native.State) :
  let event := snd (Native.updateSatelliteStatus p cache status st) in
  let satellites := Native.SatelliteStatusEvent.satellites event in
  let stats := getSatelliteStatistics satellites in
  Native.SatelliteStatusEvent.satellitesVisible event
  = Z.of_nat (Stats.total stats)
  /\ Native.SatelliteStatusEvent.satellitesUsedInFix event
     = Z.of_nat (Stats.usedInFix stats)
  /\ Native.SatelliteStatusEvent.averageSignalToNoiseRatio event
     = Stats.averageSignalStrength stats
  /\ (Native.SatelliteStatusEvent.isNavICSupported event = true
      <-> getSatellitesByConstellation satellites GnssConstellations.IRNSS
          <> [])
  /\ forall sat, In sat satellites ->
                 constellationName sat
                 = Native.getConstellationName (constellationType sat).
Proof.
  cbv zeta. rewrite updateSatelliteStatus_event. cbv zeta.
  destruct (updateSatelliteStatus_fields p cache status st)
    as (Hdata & Hcount & Hused & Hsets & Havg & _).
  cbn [Native.SatelliteStatusEvent.satellitesVisible
       Native.SatelliteStatusEvent.satellitesUsedInFix
       Native.SatelliteStatusEvent.averageSignalToNoiseRatio
       Native.SatelliteStatusEvent.isNavICSupported
       Native.SatelliteStatusEvent.satellites].
  rewrite Hdata, Hcount, Hused, Hsets, Havg.
  clear Hdata Hcount Hused Hsets Havg.
  set (data := map (Native.satelliteDataOf p cache) status).
  destruct (statistics_total_and_grouping (map Native.toWritableMap data))
    as [-> _].
  rewrite statistics_usedInFix. unfold getSatellitesUsedInFix.
  split; [|split; [|split; [|split]]].
  - subst data. rewrite !length_map. reflexivity.
  - subst data. rewrite map_map, filter_map_length. reflexivity.
  - unfold getSatelliteStatistics.
    rewrite signalStrengths_of_native_data.
    unfold Native.averageOrZero.
    destruct (omap Native.cn0DbHz data); reflexivity.
  - rewrite existsb_IRNSS_iff.
    destruct (hashSetAddInt_fold
                (map Native.GnssStatus.getConstellationType status) [])
      as [_ Hin]; [constructor|].
    rewrite Hin. unfold getSatellitesByConstellation. subst data.
    rewrite map_map. split.
    + intros [[] | Hcode]. apply in_map_iff in Hcode as [s [Hs Hin_s]].
      intros Hempty.
      assert (Hmem : In (Native.toWritableMap (Native.satelliteDataOf p cache s))
                       (List.filter
                          (fun sat => Z.eqb (constellationType sat)
                                        GnssConstellations.IRNSS)
                          (map (fun x => Native.toWritableMap
                                           (Native.satelliteDataOf p cache x))
                             status))).
      { apply filter_In. split.
        - apply in_map_iff. exists s. split; [reflexivity | exact Hin_s].
        - cbn. rewrite Hs. reflexivity. }
      rewrite Hempty in Hmem. destruct Hmem.
    + destruct (List.filter _ _) as [|sat l] eqn:Hfilter;
        [intros Hne; contradiction Hne; reflexivity | intros _; right].
      assert (Hmem : In sat (sat :: l)) by (left; reflexivity).
      rewrite <- Hfilter in Hmem. apply filter_In in Hmem as [Hmem Htype].
      apply in_map_iff in Hmem as [s [<- Hs]].
      apply in_map_iff. exists s. split; [|exact Hs].
      cbn in Htype. apply Z.eqb_eq in Htype. exact Htype.
  - intros sat Hsat. subst data. rewrite map_map in Hsat.
    apply in_map_iff in Hsat as [s [<- _]]. reflexivity.
Qed.

(** X12. A status query that is resolved after a satellite callback reports
    the counts, the average, the constellations, the NavIC flag and the
    satellites of the event that the callback sent, and the carrier
    frequencies that were detected before it. *)
Theorem status_after_satellite_callback (p p' : Native.Platform)
    (cache : Native.ReflectionCache)
    (status : list Native.GnssStatus.satellite) (st : Native.State)
    (result : Native.StatusMap) :
  Native.getGNSSStatus p' (fst (Native.updateSatelliteStatus p cache status st))
  = Resolved result ->
  snd (Native.updateSatelliteStatus p cache status st)
  = {| Native.SatelliteStatusEvent.satellitesVisible :=
         Native.satellitesVisible result;
       Native.SatelliteStatusEvent.satellitesUsedInFix :=
         Native.result_satellitesUsedInFix result;
       Native.SatelliteStatusEvent.averageSignalToNoiseRatio :=
         Native.result_averageSignalToNoiseRatio result;
       Native.SatelliteStatusEvent.supportedConstellations :=
         Native.result_supportedConstellations result;
       Native.SatelliteStatusEvent.isNavICSupported :=
         Native.isNavICSupported result;
       Native.SatelliteStatusEvent.satellites := Native.satellites result |}
  /\ Native.carrierFrequencies result = Native.detectedFrequencies st.
Proof.
  rewrite updateSatelliteStatus_event. cbv zeta.
  destruct (updateSatelliteStatus_fields p cache status st)
    as (_ & _ & _ & _ & _ & Hfreq & _).
  unfold Native.getGNSSStatus.
  destruct (negb (Native.hasLocationPermission p')); [discriminate|].
  destruct (Native.isProviderEnabled p') as [message | enabled];
    [discriminate|].
  intros [= <-]. split; [reflexivity | exact Hfreq].
Qed.

Lemma status_after_satellite_callback_witness :
  exists result,
    Native.getGNSSStatus (grantingPlatform 30)
      (fst (Native.updateSatelliteStatus (grantingPlatform 30) allAccessors
              [platformSatellite 1 true 30; platformSatellite 7 false 20]
              (sampleState [] [1575.42])))
    = Resolved result
    /\ Native.satellitesVisible result = 2%Z
    /\ Native.result_satellitesUsedInFix result = 1%Z
    /\ Native.result_supportedConstellations result = ["GPS"; "IRNSS"]
    /\ Native.carrierFrequencies result = [1575.42].
Proof.
  eexists. split; [reflexivity|].
  destruct (status_after_satellite_callback
              (grantingPlatform 30) (grantingPlatform 30) allAccessors
              [platformSatellite 1 true 30; platformSatellite 7 false 20]
              (sampleState [] [1575.42]) _ eq_refl) as [_ Hfreq].
  split; [reflexivity|]. split; [reflexivity|]. split; [reflexivity|].
  exact Hfreq.
Defined.

(** X13. When the class [GnssStatus] does not declare [hasCn0DbHz], the
    first accessor that the [init] block looks up, or when the API level is
    below 24, no satellite of the event carries a signal strength, an
    elevation or an azimuth, and the average signal is 0, whatever the
    platform reports. *)
Theorem no_signal_without_first_accessor (p : Native.Platform)
    (declares : string -> bool)
    (status : list Native.GnssStatus.satellite) (st : Native.State) :
  declares "hasCn0DbHz" = false \/ (Native.SDK_INT p < 24)%Z ->
  let event :=
    snd (Native.updateSatelliteStatus p (Native.initReflection declares)
           status st) in
  Native.SatelliteStatusEvent.averageSignalToNoiseRatio event = 0
  /\ forall sat, In sat (Native.SatelliteStatusEvent.satellites event) ->
                 cn0DbHz sat = None /\ elevation sat = None
                 /\ azimuth sat = None.
Proof.
  intros Hmissing. cbv zeta. rewrite updateSatelliteStatus_event. cbv zeta.
  destruct (updateSatelliteStatus_fields p (Native.initReflection declares)
              status st) as (Hdata & _ & _ & _ & Havg & _).
  cbn [Native.SatelliteStatusEvent.averageSignalToNoiseRatio
       Native.SatelliteStatusEvent.satellites].
  rewrite Hdata, Havg. clear Hdata Havg.
  assert (Hnone : forall s,
             Native.cn0DbHz
               (Native.satelliteDataOf p (Native.initReflection declares) s)
             = None
             /\ Native.elevation
                  (Native.satelliteDataOf p (Native.initReflection declares) s)
                = None
             /\ Native.azimuth
                  (Native.satelliteDataOf p (Native.initReflection declares) s)
                = None).
  { intros s. unfold Native.satelliteDataOf.
    cbn [Native.cn0DbHz Native.elevation Native.azimuth].
    destruct Hmissing as [Hdecl | Hsdk].
    - unfold Native.safeHasCn0DbHz, Native.safeHasElevationDegrees,
        Native.safeHasAzimuthDegrees, Native.initReflection.
      cbn [Native.accessorNames Native.foundBeforeFirstMissing].
      rewrite Hdecl. cbn. rewrite !andb_false_r. repeat split.
    - assert (Hleb : Z.leb Native.VERSION_CODES_N (Native.SDK_INT p) = false)
        by (apply Z.leb_gt; exact Hsdk).
      rewrite Hleb. repeat split. }
  split.
  - assert (Hsignals : omap Native.cn0DbHz
                         (map (Native.satelliteDataOf p
                                 (Native.initReflection declares)) status)
                       = []).
    { induction status as [|s l IH]; [reflexivity|].
      cbn [map omap list_omap].
      destruct (Hnone s) as [-> _]. exact IH. }
    rewrite Hsignals. reflexivity.
  - intros sat Hsat. rewrite map_map in Hsat.
    apply in_map_iff in Hsat as [s [<- _]].
    cbn [Native.toWritableMap cn0DbHz elevation azimuth]. apply Hnone.
Qed.

Lemma no_signal_without_first_accessor_witness :
  Native.SatelliteStatusEvent.averageSignalToNoiseRatio
    (snd (Native.updateSatelliteStatus (grantingPlatform 30)
            (Native.initReflection (fun name => negb (String.eqb name "hasCn0DbHz")))
            [platformSatellite 1 true 30] (sampleState [] [])))
  = 0.
Proof.
  apply (no_signal_without_first_accessor (grantingPlatform 30)
           (fun name => negb (String.eqb name "hasCn0DbHz"))
           [platformSatellite 1 true 30] (sampleState [] [])).
  left. reflexivity.
Defined.

Lemma getConstellationName_injective_on_known (x y : Z) :
  (0 <= x <= 7)%Z -> (0 <= y <= 7)%Z ->
  Native.getConstellationName x = Native.getConstellationName y -> x = y.
Proof.
  intros Hx Hy.
  assert (Ex : (x = 0 \/ x = 1 \/ x = 2 \/ x = 3 \/ x = 4 \/ x = 5 \/ x = 6
                \/ x = 7)%Z) by lia.
  assert (Ey : (y = 0 \/ y = 1 \/ y = 2 \/ y = 3 \/ y = 4 \/ y = 5 \/ y = 6
                \/ y = 7)%Z) by lia.
  clear Hx Hy.
  repeat (destruct Ex as [-> | Ex]); try subst x;
    repeat (destruct Ey as [-> | Ey]); try subst y;
    cbn; intros H; first [reflexivity | discriminate H].
Qed.

(** X14. The constellation names of the event are free of duplicates when
    every satellite has one of the codes 0 to 7, however often a code
    occurs among the satellites. *)
Theorem constellation_names_without_duplicates (p : Native.Platform)
    (cache : Native.ReflectionCache)
    (status : list Native.GnssStatus.satellite) (st : Native.State) :
  (forall s, In s status ->
             (0 <= Native.GnssStatus.getConstellationType s <= 7)%Z) ->
  NoDup (Native.SatelliteStatusEvent.supportedConstellations
           (snd (Native.updateSatelliteStatus p cache status st))).
Proof.
  intros Hcodes. rewrite updateSatelliteStatus_event. cbv zeta.
  destruct (updateSatelliteStatus_fields p cache status st)
    as (_ & _ & _ & Hsets & _).
  cbn [Native.SatelliteStatusEvent.supportedConstellations]. rewrite Hsets.
  destruct (hashSetAddInt_fold
              (map Native.GnssStatus.getConstellationType status) [])
    as [Hnodup Hin]; [constructor|].
  apply NoDup_ListNoDup. apply NoDup_map_NoDup_ForallPairs.
  - intros x y Hx Hy. apply Hin in Hx, Hy.
    destruct Hx as [Hx | Hx]; [destruct Hx|].
    destruct Hy as [Hy | Hy]; [destruct Hy|].
    apply in_map_iff in Hx as [sx [<- Hsx]].
    apply in_map_iff in Hy as [sy [<- Hsy]].
    apply getConstellationName_injective_on_known; auto.
  - apply NoDup_ListNoDup. exact Hnodup.
Qed.

Lemma constellation_names_without_duplicates_witness :
  NoDup (Native.SatelliteStatusEvent.supportedConstellations
           (snd (Native.updateSatelliteStatus (grantingPlatform 30)
                   allAccessors
                   [platformSatellite 1 true 30; platformSatellite 1 false 25;
                    platformSatellite 7 true 20]
                   (sampleState [] [])))).
Proof.
  apply (constellation_names_without_duplicates (grantingPlatform 30)
           allAccessors
           [platformSatellite 1 true 30; platformSatellite 1 false 25;
            platformSatellite 7 true 20]
           (sampleState [] [])).
  intros s [<- | [<- | [<- | []]]]; cbn; lia.
Defined.

(** Two codes outside 1 to 7 are both named "UNKNOWN": with the codes 0 and
    8 the name occurs twice. *)
Lemma constellation_names_may_repeat_UNKNOWN :
  Native.SatelliteStatusEvent.supportedConstellations
    (snd (Native.updateSatelliteStatus (grantingPlatform 30) allAccessors
            [platformSatellite 0 true 30; platformSatellite 8 true 30]
            (sampleState [] [])))
  = ["UNKNOWN"; "UNKNOWN"].
Proof. reflexivity. Qed.

(** ** Stopping and starting *)

(** X15. [stopListening] asks for no permission.  When it resolves, both
    callbacks it is allowed to unregister are gone and the cached snapshot
    is cleared, so that a status query resolved afterwards reports no
    satellite, no constellation, no frequency and no dual-frequency or
    NavIC support. *)
Theorem stopListening_clears_the_snapshot (p p' : Native.Platform)
    (u : Native.Unregistration) (st st' : Native.State)
    (result : Native.StatusMap) :
  Native.stopListening p u st = (Resolved tt, st') ->
  Native.getGNSSStatus p' st' = Resolved result ->
  Native.gnssStatusCallback st' = false
  /\ ((24 <= Native.SDK_INT p)%Z -> Native.gnssMeasurementsCallback st' = false)
  /\ Native.satellitesVisible result = 0%Z
  /\ Native.result_satellitesUsedInFix result = 0%Z
  /\ Native.result_averageSignalToNoiseRatio result = 0
  /\ Native.result_supportedConstellations result = []
  /\ Native.carrierFrequencies result = []
  /\ Native.satellites result = []
  /\ Native.isDualFrequencySupported result = false
  /\ Native.isNavICSupported result = false.
Proof.
  intros Hstop Hstatus.
  assert (Hst' : Native.gnssStatusCallback st' = false
                 /\ ((24 <= Native.SDK_INT p)%Z ->
                     Native.gnssMeasurementsCallback st' = false)
                 /\ Native.cleared st' = st').
  { revert Hstop. unfold Native.stopListening, Native.stopListeningFailed.
    repeat match goal with
           | |- context [if ?c then _ else _] => destruct c eqn:?
           | |- context [match ?e with inl _ => _ | inr _ => _ end] =>
               destruct e eqn:?
           end;
      try discriminate; intros [= <-]; cbn in *;
      (split; [first [reflexivity | assumption]|]);
      (split; [|reflexivity]); intros Hge;
      first [ reflexivity
            | assumption
            | match goal with
              | H : (Native.VERSION_CODES_N <=? _)%Z = false |- _ =>
                  apply Z.leb_gt in H; unfold Native.VERSION_CODES_N in H; lia
              end ]. }
  destruct Hst' as (Hstatus_cb & Hmeasure_cb & Hcleared).
  split; [exact Hstatus_cb|]. split; [exact Hmeasure_cb|].
  revert Hstatus. rewrite <- Hcleared. unfold Native.getGNSSStatus.
  destruct (negb (Native.hasLocationPermission p')); [discriminate|].
  destruct (Native.isProviderEnabled p') as [message | enabled];
    [discriminate|].
  intros [= <-]. cbn. repeat split.
Qed.

Lemma stopListening_clears_the_snapshot_witness :
  exists st' result,
    Native.stopListening
      {| Native.checkSelfPermission_granted := false;
         Native.SDK_INT := 30;
         Native.isProviderEnabled := inr true;
         Native.registerGnssStatusCallback := inr tt;
         Native.registerGnssMeasurementsCallback := inr tt |}
      unregistering
      (snd (Native.startListening (grantingPlatform 30)
              (sampleState [1; 7]%Z [1176.45])))
    = (Resolved tt, st')
    /\ Native.getGNSSStatus (grantingPlatform 30) st' = Resolved result
    /\ Native.carrierFrequencies result = []
    /\ Native.isNavICSupported result = false.
Proof.
  eexists. eexists. split; [reflexivity|]. split; [reflexivity|].
  match goal with
  | |- Native.carrierFrequencies ?r = [] /\ _ =>
      destruct (stopListening_clears_the_snapshot
                  {| Native.checkSelfPermission_granted := false;
                     Native.SDK_INT := 30;
                     Native.isProviderEnabled := inr true;
                     Native.registerGnssStatusCallback := inr tt;
                     Native.registerGnssMeasurementsCallback := inr tt |}
                  (grantingPlatform 30) unregistering
                  (snd (Native.startListening (grantingPlatform 30)
                          (sampleState [1; 7]%Z [1176.45])))
                  _ r eq_refl eq_refl)
        as (_ & _ & _ & _ & _ & _ & Hfreq & _ & _ & Hnavic)
  end.
  split; [exact Hfreq | exact Hnavic].
Defined.

Ltac stop_cases :=
  repeat match goal with
         | |- context [if ?c then _ else _] => destruct c eqn:?
         | |- context [match ?e with inl _ => _ | inr _ => _ end] =>
             destruct e eqn:?
         end.

(** X16. When [stopListening] rejects, the code is "STOP_LISTENING_ERROR"
    and the cached snapshot is kept: every status query answers afterwards
    as it would have answered before. *)
Theorem rejected_stop_keeps_the_snapshot (p p' : Native.Platform)
    (u : Native.Unregistration) (st st' : Native.State)
    (code message : string) :
  Native.stopListening p u st = (Rejected code message, st') ->
  code = "STOP_LISTENING_ERROR"
  /\ Native.getGNSSStatus p' st' = Native.getGNSSStatus p' st.
Proof.
  unfold Native.stopListening, Native.stopListeningFailed.
  stop_cases; try discriminate; intros [= <- <- <-];
    (split; [reflexivity|]); reflexivity.
Qed.

Lemma rejected_stop_keeps_the_snapshot_witness :
  exists message st',
    Native.stopListening (grantingPlatform 30)
      {| Native.unregisterGnssStatusCallback := inr tt;
         Native.unregisterGnssMeasurementsCallback := inl "dead object" |}
      (snd (Native.startListening (grantingPlatform 30)
              (sampleState [7]%Z [1176.45])))
    = (Rejected "STOP_LISTENING_ERROR" message, st')
    /\ Native.gnssStatusCallback st' = false
    /\ Native.getGNSSStatus (grantingPlatform 30) st'
       = Native.getGNSSStatus (grantingPlatform 30) (sampleState [7]%Z [1176.45]).
Proof.
  eexists. eexists. split; [reflexivity|]. split; [reflexivity|].
  match goal with
  | |- Native.getGNSSStatus _ ?s' = _ =>
      destruct (rejected_stop_keeps_the_snapshot
                  (grantingPlatform 30) (grantingPlatform 30)
                  {| Native.unregisterGnssStatusCallback := inr tt;
                     Native.unregisterGnssMeasurementsCallback :=
                       inl "dead object" |}
                  (snd (Native.startListening (grantingPlatform 30)
                          (sampleState [7]%Z [1176.45])))
                  s' _ _ eq_refl) as [_ Hsame]
  end.
  rewrite Hsame. reflexivity.
Defined.

(** X17. Starting twice registers once: after a start that resolved, a
    further start at the same API level with the permission resolves and
    changes nothing, whatever a registration would do. *)
Theorem startListening_twice (p p' : Native.Platform)
    (st st1 : Native.State) :
  Native.startListening p st = (Resolved tt, st1) ->
  Native.hasLocationPermission p' = true ->
  Native.SDK_INT p' = Native.SDK_INT p ->
  Native.startListening p' st1 = (Resolved tt, st1).
Proof.
  unfold Native.startListening, Native.startListeningFailed.
  intros Hfirst Hperm Hsdk. rewrite Hperm, Hsdk. cbn [negb].
  revert Hfirst.
  destruct (negb (Native.hasLocationPermission p)); [discriminate|].
  destruct (Native.gnssStatusCallback st) eqn:Hcb; cbn [negb];
    [|destruct (Native.registerGnssStatusCallback p); [discriminate|]];
    destruct (Z.leb Native.VERSION_CODES_N (Native.SDK_INT p)) eqn:Hapi;
    cbn [andb];
    try (match goal with
         | |- context [negb (Native.gnssMeasurementsCallback ?s)] =>
             destruct (Native.gnssMeasurementsCallback s) eqn:Hm
         end; cbn [negb];
         [|destruct (Native.registerGnssMeasurementsCallback p);
           [discriminate|]]);
    intros [= <-]; cbn; rewrite ?Hcb, ?Hapi; cbn;
    try (cbn in Hm; rewrite Hm); reflexivity.
Qed.

Lemma startListening_twice_witness :
  Native.startListening
    {| Native.checkSelfPermission_granted := true;
       Native.SDK_INT := 30;
       Native.isProviderEnabled := inr true;
       Native.registerGnssStatusCallback := inl "refused";
       Native.registerGnssMeasurementsCallback := inl "refused" |}
    (snd (Native.startListening (grantingPlatform 30) (sampleState [] [])))
  = (Resolved tt,
     snd (Native.startListening (grantingPlatform 30) (sampleState [] []))).
Proof.
  apply (startListening_twice (grantingPlatform 30) _ (sampleState [] []));
    reflexivity.
Defined.



(** ** The measurement callback *)

Lemma updateMeasurements_fields (p : Native.Platform)
    (measurements : list Native.GnssMeasurement.t) (st : Native.State) :
  let st' := fst (Native.updateMeasurements p measurements st) in
  Native.satelliteDataList st' = Native.satelliteDataList st
  /\ Native.currentSatelliteCount st' = Native.currentSatelliteCount st
  /\ Native.satellitesUsedInFix st' = Native.satellitesUsedInFix st
  /\ Native.supportedConstellations st' = Native.supportedConstellations st
  /\ Native.averageSignalToNoiseRatio st' = Native.averageSignalToNoiseRatio st
  /\ Native.gnssStatusCallback st' = Native.gnssStatusCallback st
  /\ Native.gnssMeasurementsCallback st' = Native.gnssMeasurementsCallback st.
Proof.
  unfold Native.updateMeasurements.
  destruct (Z.leb Native.VERSION_CODES_N (Native.SDK_INT p)); cbn;
    repeat split.
Qed.

Lemma measurement_loop_below_O (p : Native.Platform)
    (measurements : list Native.GnssMeasurement.t) (frequencies : list Q) :
  Z.leb Native.VERSION_CODES_O (Native.SDK_INT p) = false ->
  fold_left (Native.measurementLoopStep p) measurements frequencies
  = frequencies.
Proof.
  intros Hsdk. revert frequencies.
  induction measurements as [|m l IH]; intros frequencies; [reflexivity|].
  cbn [fold_left]. unfold Native.measurementLoopStep at 2.
  rewrite Hsdk. apply IH.
Qed.

(** X19. Below API level 24 the measurement callback does nothing and sends
    no event.  At API levels 24 and 25 it empties the detected frequencies
    and reports no dual-frequency support, whatever the measurements
    carry. *)
Theorem updateMeasurements_below_API_26 (p : Native.Platform)
    (measurements : list Native.GnssMeasurement.t) (st : Native.State) :
  ((Native.SDK_INT p < 24)%Z ->
   Native.updateMeasurements p measurements st = (st, None))
  /\ ((24 <= Native.SDK_INT p < 26)%Z ->
      Native.detectedFrequencies
        (fst (Native.updateMeasurements p measurements st)) = []
      /\ snd (Native.updateMeasurements p measurements st)
         = Some {| Native.MeasurementsEvent.carrierFrequencies := [];
                   Native.MeasurementsEvent.isDualFrequencySupported := false |}).
Proof.
  unfold Native.updateMeasurements. split.
  - intros Hsdk.
    assert (Hleb : Z.leb Native.VERSION_CODES_N (Native.SDK_INT p) = false)
      by (apply Z.leb_gt; exact Hsdk).
    rewrite Hleb. reflexivity.
  - intros [Hlo Hhi].
    assert (HN : Z.leb Native.VERSION_CODES_N (Native.SDK_INT p) = true)
      by (apply Z.leb_le; exact Hlo).
    assert (HO : Z.leb Native.VERSION_CODES_O (Native.SDK_INT p) = false)
      by (apply Z.leb_gt; exact Hhi).
    rewrite HN, (measurement_loop_below_O p measurements [] HO).
    split; reflexivity.
Qed.

(** X20. The two callbacks touch disjoint parts of the module, so the order
    in which a satellite snapshot and a measurement snapshot arrive does not
    matter: the module ends in the same state and sends the same two
    events. *)
Theorem callbacks_commute (p : Native.Platform) (cache : Native.ReflectionCache)
    (status : list Native.GnssStatus.satellite)
    (measurements : list Native.GnssMeasurement.t) (st : Native.State) :
  let afterStatus := Native.updateSatelliteStatus p cache status st in
  let afterMeasurements := Native.updateMeasurements p measurements st in
  fst (Native.updateMeasurements p measurements (fst afterStatus))
  = fst (Native.updateSatelliteStatus p cache status (fst afterMeasurements))
  /\ snd (Native.updateMeasurements p measurements (fst afterStatus))
     = snd afterMeasurements
  /\ snd (Native.updateSatelliteStatus p cache status (fst afterMeasurements))
     = snd afterStatus.
Proof.
  cbv zeta.
  assert (Hstate : forall s1 s2 : Native.State,
             Native.gnssStatusCallback s1 = Native.gnssStatusCallback s2 ->
             Native.gnssMeasurementsCallback s1
             = Native.gnssMeasurementsCallback s2 ->
             Native.currentSatelliteCount s1 = Native.currentSatelliteCount s2 ->
             Native.satellitesUsedInFix s1 = Native.satellitesUsedInFix s2 ->
             Native.averageSignalToNoiseRatio s1
             = Native.averageSignalToNoiseRatio s2 ->
             Native.supportedConstellations s1
             = Native.supportedConstellations s2 ->
             Native.detectedFrequencies s1 = Native.detectedFrequencies s2 ->
             Native.satelliteDataList s1 = Native.satelliteDataList s2 ->
             s1 = s2).
  { intros [] []; cbn; intros; subst; reflexivity. }
  pose proof (updateSatelliteStatus_fields p cache status st) as HS.
  pose proof (updateSatelliteStatus_fields p cache status
                (fst (Native.updateMeasurements p measurements st))) as HS'.
  pose proof (updateMeasurements_fields p measurements st) as HM.
  pose proof (updateMeasurements_fields p measurements
                (fst (Native.updateSatelliteStatus p cache status st))) as HM'.
  cbv zeta in HS, HS', HM, HM'.
  destruct HS as (S1 & S2 & S3 & S4 & S5 & S6 & S7 & S8).
  destruct HS' as (S1' & S2' & S3' & S4' & S5' & S6' & S7' & S8').
  destruct HM as (M1 & M2 & M3 & M4 & M5 & M6 & M7).
  destruct HM' as (M1' & M2' & M3' & M4' & M5' & M6' & M7').
  assert (Hfreq : Native.detectedFrequencies
                    (fst (Native.updateMeasurements p measurements
                            (fst (Native.updateSatelliteStatus p cache status st))))
                  = Native.detectedFrequencies
                      (fst (Native.updateMeasurements p measurements st))
                  /\ snd (Native.updateMeasurements p measurements
                            (fst (Native.updateSatelliteStatus p cache status st)))
                     = snd (Native.updateMeasurements p measurements st)).
  { unfold Native.updateMeasurements.
    destruct (Z.leb Native.VERSION_CODES_N (Native.SDK_INT p));
      cbn [fst snd Native.detectedFrequencies]; split;
      first [reflexivity | exact S6]. }
  destruct Hfreq as [Hfreq Hevent].
  split; [|split].
  - apply Hstate; congruence.
  - exact Hevent.
  - rewrite !updateSatelliteStatus_event. cbv zeta. congruence.
Qed.

(** X21. A status query that is resolved after a measurement callback
    reports the carrier frequencies and the dual-frequency flag of the event
    that the callback sent. *)
Theorem status_after_measurement_callback (p p' : Native.Platform)
    (measurements : list Native.GnssMeasurement.t) (st : Native.State)
    (event : Native.MeasurementsEvent.t) (result : Native.StatusMap) :
  snd (Native.updateMeasurements p measurements st) = Some event ->
  Native.getGNSSStatus p' (fst (Native.updateMeasurements p measurements st))
  = Resolved result ->
  Native.carrierFrequencies result
  = Native.MeasurementsEvent.carrierFrequencies event
  /\ Native.isDualFrequencySupported result
     = Native.MeasurementsEvent.isDualFrequencySupported event.
Proof.
  unfold Native.updateMeasurements, Native.getGNSSStatus.
  destruct (Z.leb Native.VERSION_CODES_N (Native.SDK_INT p));
    [|discriminate].
  cbn [fst snd]. intros [= <-].
  destruct (negb (Native.hasLocationPermission p')); [discriminate|].
  destruct (Native.isProviderEnabled p') as [message | enabled];
    [discriminate|].
  intros [= <-]. split; reflexivity.
Qed.

Lemma status_after_measurement_callback_witness :
  exists event result,
    snd (Native.updateMeasurements (grantingPlatform 30)
           [measurementAt 1575420000; measurementAt 1176450000;
            measurementAt 1575420000] (sampleState [] []))
    = Some event
    /\ Native.getGNSSStatus (grantingPlatform 30)
         (fst (Native.updateMeasurements (grantingPlatform 30)
                 [measurementAt 1575420000; measurementAt 1176450000;
                  measurementAt 1575420000] (sampleState [] [])))
       = Resolved result
    /\ length (Native.carrierFrequencies result) = 2%nat
    /\ Native.isDualFrequencySupported result = true.
Proof.
  eexists. eexists. split; [reflexivity|]. split; [reflexivity|].
  match goal with
  | |- length (Native.carrierFrequencies ?r) = _ /\ _ =>
      destruct (status_after_measurement_callback
                  (grantingPlatform 30) (grantingPlatform 30)
                  [measurementAt 1575420000; measurementAt 1176450000;
                   measurementAt 1575420000] (sampleState [] [])
                  _ r eq_refl eq_refl) as [Hfreq Hdual]
  end.
  rewrite Hfreq, Hdual. split; vm_compute; reflexivity.
Defined.

Lemma hashSetAddDouble_spec (x : Q) (set : list Q) :
  NoDupA Qeq set ->
  NoDupA Qeq (Native.hashSetAddDouble x set)
  /\ forall f, InA Qeq f (Native.hashSetAddDouble x set)
               <-> InA Qeq f set \/ x == f.
Proof.
  intros Hset. unfold Native.hashSetAddDouble.
  destruct (existsb (Qeq_bool x) set) eqn:Hex.
  - split; [assumption|]. intros f. split; [tauto|].
    intros [H | Heq]; [assumption|].
    apply existsb_exists in Hex as [y [Hy Hxy]].
    apply Qeq_bool_iff in Hxy. apply InA_alt. exists y. split; [|assumption].
    rewrite <- Heq. exact Hxy.
  - assert (Hfresh : ~ InA Qeq x set).
    { intros Hin. apply InA_alt in Hin as [y [Hxy Hy]].
      assert (existsb (Qeq_bool x) set = true) as Hcontra.
      { apply existsb_exists. exists y. split; [assumption|].
        apply Qeq_bool_iff. exact Hxy. }
      congruence. }
    split.
    + apply NoDupA_app; [apply Q_Setoid | assumption | |].
      * constructor; [intros H; inversion H | constructor].
      * intros y Hy Hx. inversion Hx as [? ? Heq | ? ? H]; subst;
          [|inversion H].
        apply Hfresh. rewrite <- Heq. exact Hy.
    + intros f. rewrite InA_app_iff. split.
      * intros [H | H]; [left; exact H|].
        inversion H as [? ? Heq | ? ? H']; subst; [|inversion H'].
        right. symmetry. exact Heq.
      * intros [H | Heq]; [left; exact H|].
        right. constructor. symmetry. exact Heq.
Qed.

Lemma measurement_loop_from_O (p : Native.Platform)
    (measurements : list Native.GnssMeasurement.t) (frequencies : list Q) :
  Z.leb Native.VERSION_CODES_O (Native.SDK_INT p) = true ->
  NoDupA Qeq frequencies ->
  NoDupA Qeq (fold_left (Native.measurementLoopStep p) measurements frequencies)
  /\ forall f,
       InA Qeq f (fold_left (Native.measurementLoopStep p) measurements
                    frequencies)
       <-> InA Qeq f frequencies
           \/ exists m, In m measurements
                        /\ Native.GnssMeasurement.hasCarrierFrequencyHz m = true
                        /\ Native.GnssMeasurement.carrierFrequencyHz m / 1000000
                           == f.
Proof.
  intros Hsdk. revert frequencies.
  induction measurements as [|m l IH]; intros frequencies Hset;
    cbn [fold_left].
  - split; [assumption|]. intros f. split; [tauto|].
    intros [H | [m [[] _]]]. exact H.
  - assert (Hstep : NoDupA Qeq (Native.measurementLoopStep p frequencies m)
                    /\ forall f,
                         InA Qeq f (Native.measurementLoopStep p frequencies m)
                         <-> InA Qeq f frequencies
                             \/ (Native.GnssMeasurement.hasCarrierFrequencyHz m
                                 = true
                                 /\ Native.GnssMeasurement.carrierFrequencyHz m
                                    / 1000000 == f)).
    { unfold Native.measurementLoopStep. rewrite Hsdk.
      destruct (Native.GnssMeasurement.hasCarrierFrequencyHz m).
      - destruct (hashSetAddDouble_spec
                    (Native.GnssMeasurement.carrierFrequencyHz m / 1000000)
                    frequencies Hset) as [Hnodup Hin].
        split; [assumption|]. intros f. rewrite Hin. tauto.
      - split; [assumption|]. intros f. split; [tauto|].
        intros [H | [H _]]; [exact H | discriminate H]. }
    destruct Hstep as [Hnodup Hin].
    destruct (IH _ Hnodup) as [IHnodup IHin]. split; [assumption|].
    intros f. rewrite IHin, Hin. split.
    + intros [[H | [Hhas Heq]] | [m' [Hm' H]]].
      * left. exact H.
      * right. exists m. split; [left; reflexivity | split; assumption].
      * right. exists m'. split; [right; exact Hm' | exact H].
    + intros [H | [m' [[<- | Hm'] H]]].
      * left. left. exact H.
      * left. right. exact H.
      * right. exists m'. split; assumption.
Qed.

(** X22. From API level 26 on, the detected frequencies after a measurement
    callback are the carrier frequencies of the measurements that have one,
    divided by 1e6, each number once: the earlier detected frequencies are
    gone and repeated measurements of one frequency give one entry. *)
Theorem detected_frequencies_are_the_measured_ones (p : Native.Platform)
    (measurements : list Native.GnssMeasurement.t) (st : Native.State) :
  (26 <= Native.SDK_INT p)%Z ->
  let frequencies :=
    Native.detectedFrequencies
      (fst (Native.updateMeasurements p measurements st)) in
  NoDupA Qeq frequencies
  /\ forall f,
       InA Qeq f frequencies
       <-> exists m, In m measurements
                     /\ Native.GnssMeasurement.hasCarrierFrequencyHz m = true
                     /\ Native.GnssMeasurement.carrierFrequencyHz m / 1000000
                        == f.
Proof.
  intros Hsdk. cbv zeta. unfold Native.updateMeasurements.
  assert (HN : Z.leb Native.VERSION_CODES_N (Native.SDK_INT p) = true)
    by (apply Z.leb_le; unfold Native.VERSION_CODES_N; lia).
  assert (HO : Z.leb Native.VERSION_CODES_O (Native.SDK_INT p) = true)
    by (apply Z.leb_le; exact Hsdk).
  rewrite HN. cbn [fst Native.detectedFrequencies].
  destruct (measurement_loop_from_O p measurements [] HO) as [Hnodup Hin];
    [constructor|].
  split; [assumption|]. intros f. rewrite Hin. split.
  - intros [H | H]; [inversion H | exact H].
  - intros H. right. exact H.
Qed.

Lemma detected_frequencies_are_the_measured_ones_witness :
  NoDupA Qeq
    (Native.detectedFrequencies
       (fst (Native.updateMeasurements (grantingPlatform 30)
               [measurementAt 1575420000; measurementAt 1575420000]
               (sampleState [] [1176.45])))).
Proof.
  apply (detected_frequencies_are_the_measured_ones (grantingPlatform 30)
           [measurementAt 1575420000; measurementAt 1575420000]
           (sampleState [] [1176.45])).
  cbn. lia.
Defined.

(** ** A negative tolerance *)

(** X23. With a negative tolerance no nominal frequency can match, but the
    two GLONASS ranges only shrink: the result is "UNKNOWN" or the L1 or L2
    band of GLONASS. *)
Theorem negative_tolerance_matches_ranges_only (freq t : Q) :
  t < 0 ->
  identifyFrequencyBand freq (Some t) = unknownBand freq
  \/ (constellation (identifyFrequencyBand freq (Some t)) = "GLONASS"
      /\ (band (identifyFrequencyBand freq (Some t)) = "L1"
          \/ band (identifyFrequencyBand freq (Some t)) = "L2")).
Proof.
  intros Ht. rewrite identifyFrequencyBand_scan. unfold classifyBy.
  change (default 1.0 (Some t)) with t.
  destruct (find _ declaredBands) as [d|] eqn:Hfind; [|left; reflexivity].
  apply matches_some in Hfind as [Hin Hm]. right.
  revert Hm. unfold matches. unfold declaredBands in Hin; cbn [In] in Hin.
  repeat (destruct Hin as [<- | Hin];
          [cbn [window inWindow]; unfold_frequencies; intros Hm;
           first [ apply within_iff in Hm; destruct Hm; exfalso; lra
                 | cbn; split; [reflexivity | auto] ] |]).
  destruct Hin.
Qed.

Lemma negative_tolerance_matches_ranges_only_witness :
  identifyFrequencyBand 1600 (Some (-1))
  = {| frequency := 1600; constellation := "GLONASS"; band := "L1";
       isDualFrequency := false |}
  /\ (identifyFrequencyBand 1575.42 (Some (-1)) = unknownBand 1575.42
      \/ (constellation (identifyFrequencyBand 1575.42 (Some (-1))) = "GLONASS"
          /\ (band (identifyFrequencyBand 1575.42 (Some (-1))) = "L1"
              \/ band (identifyFrequencyBand 1575.42 (Some (-1))) = "L2"))).
Proof.
  split; [vm_compute; reflexivity|].
  apply (negative_tolerance_matches_ranges_only 1575.42 (-1)).
  vm_compute. reflexivity.
Defined.

(** ** Statistics of filtered lists *)

Lemma filter_idempotent {A : Type} (keep : A -> bool) (l : list A) :
  List.filter keep (List.filter keep l) = List.filter keep l.
Proof.
  induction l as [|x l IH]; [reflexivity|].
  cbn [List.filter]. destruct (keep x) eqn:Hx; [|exact IH].
  cbn [List.filter]. rewrite Hx, IH. reflexivity.
Qed.

(** X24. The statistics of a filtered list show the filter: among the
    satellites used in the fix all are counted as used, among those with a
    good signal all are counted as good, both counts are the ones of the
    whole list, and the weakest signal of a non-empty list of satellites
    with a good signal is at least 20. *)
Theorem statistics_of_filtered_lists (satellites : list SatelliteInfo) :
  let used := getSatelliteStatistics (getSatellitesUsedInFix satellites) in
  let good :=
    getSatelliteStatistics (getSatellitesWithGoodSignal satellites None) in
  Stats.usedInFix used = Stats.total used
  /\ Stats.total used = Stats.usedInFix (getSatelliteStatistics satellites)
  /\ Stats.withGoodSignal good = Stats.total good
  /\ Stats.total good = Stats.withGoodSignal (getSatelliteStatistics satellites)
  /\ ((0 < Stats.total good)%nat -> 20 <= Stats.weakestSignal good).
Proof.
  cbv zeta.
  destruct (statistics_total_and_grouping (getSatellitesUsedInFix satellites))
    as [-> _].
  destruct (statistics_total_and_grouping
              (getSatellitesWithGoodSignal satellites None)) as [-> _].
  rewrite !statistics_usedInFix.
  destruct (statistics_withGoodSignal
              (getSatellitesWithGoodSignal satellites None)) as [_ ->].
  destruct (statistics_withGoodSignal satellites) as [_ ->].
  unfold getSatellitesUsedInFix, getSatellitesWithGoodSignal.
  change (default 20 None) with 20.
  rewrite !filter_idempotent.
  split; [reflexivity|]. split; [reflexivity|]. split; [reflexivity|].
  split; [reflexivity|].
  intros Hlen. unfold getSatelliteStatistics.
  assert (Hall : forall cn0,
             In cn0 (signalStrengthsOf
                       (List.filter (hasSignalAtLeast 20) satellites)) ->
             20 <= cn0).
  { intros cn0 Hin. apply signalStrengthsOf_In in Hin as [sat [Hsat Hcn0]].
    apply filter_In in Hsat as [_ Hsat].
    apply hasSignalAtLeast_iff in Hsat as [c [Hc Hle]]. congruence. }
  destruct (signalStrengthsOf (List.filter (hasSignalAtLeast 20) satellites))
    as [|first rest] eqn:Hsig.
  - exfalso.
    destruct (List.filter (hasSignalAtLeast 20) satellites) as [|sat l]
      eqn:Hfilter; [cbn in Hlen; lia|].
    assert (Hsat : In sat (List.filter (hasSignalAtLeast 20) satellites))
      by (rewrite Hfilter; left; reflexivity).
    apply filter_In in Hsat as [_ Hsat].
    apply hasSignalAtLeast_iff in Hsat as [c [Hc _]].
    pose proof (proj1 (signalStrengthsOf_nil (sat :: l)) Hsig sat
                  (or_introl eq_refl)) as Hnone.
    congruence.
  - cbn [Stats.weakestSignal].
    destruct (Math_min_is_minimum first rest) as [Hin _].
    apply Hall, Hin.
Qed.
